(** * SimpleConfig: layered configuration store, schema migration and fee
      estimation (lib/simple_config.py)

    A shallow embedding of the [SimpleConfig] class.  Python dictionaries with
    string keys are [gmap string value]; the fee sample dictionary, whose
    iteration order is observable in [reverse_dynfee], is an association list
    in insertion order.  Methods that mutate the object or may raise live in a
    small state-and-exception monad over the record [SimpleConfig]; the
    mutations made before an exception are kept, as in Python.  Messages
    sent to [print_error] and [print_stderr] leave no trace in the object
    and are not represented. *)

From Stdlib Require Import ZArith QArith Qabs Qminmax String Ascii List Bool Lia.
From Stdlib Require Import DecimalString Lqa.
From stdpp Require Import base option gmap strings list fin_maps.

Local Open Scope string_scope.
Local Open Scope Z_scope.

(** ** Python values and built-ins *)

(** The JSON scalars a settings map holds.  [VBool] is kept apart from
    [VInt] but compares as 0 or 1, as [bool] does in Python.  Floats, lists
    and nested maps are left out. *)
Inductive value : Type :=
  | VNone
  | VBool (b : bool)
  | VInt (z : Z)
  | VStr (s : string).

Inductive exn : Type :=
  | TypeError
  | ValueError
  | AssertionError
  | IndexError
  | ZeroDivisionError
  | FileNotFoundError
  | OSError
  | Exception (msg : string).

Inductive res (A : Type) : Type :=
  | Ok (a : A)
  | Raise (e : exn).
Arguments Ok {A} a.
Arguments Raise {A} e.

Definition is_none (v : value) : bool :=
  match v with VNone => true | _ => false end.

(** [bool(v)], the truth value used by [if], [not] and [and]. *)
Definition py_truthy (v : value) : bool :=
  match v with
  | VNone => false
  | VBool b => b
  | VInt z => negb (z =? 0)
  | VStr s => negb (String.eqb s "")
  end.

(** The number a value stands for in a comparison or in arithmetic;
    [None] and strings have none and make the operation raise [TypeError]. *)
Definition as_int (v : value) : option Z :=
  match v with
  | VInt z => Some z
  | VBool b => Some (if b then 1 else 0)
  | VNone | VStr _ => None
  end.

Definition py_lt (v : value) (n : Z) : res bool :=
  match as_int v with Some z => Ok (z <? n) | None => Raise TypeError end.

Definition py_gt (v : value) (n : Z) : res bool :=
  match as_int v with Some z => Ok (z >? n) | None => Raise TypeError end.

(** [v == 0]: equality never raises; values that are not numbers are
    simply different from 0. *)
Definition py_eq_zero (v : value) : bool :=
  match as_int v with Some z => z =? 0 | None => false end.

(** [str(z)] for an integer. *)
Definition str_of_Z (z : Z) : string := NilEmpty.string_of_int (Z.to_int z).

(** [str(v)]. *)
Definition py_str (v : value) : string :=
  match v with
  | VNone => "None"
  | VBool true => "True"
  | VBool false => "False"
  | VInt z => str_of_Z z
  | VStr s => s
  end.

(** *** [str.rsplit(sep, maxsplit)] for a one-character separator *)

Fixpoint rev_string_acc (s acc : string) : string :=
  match s with
  | EmptyString => acc
  | String c s' => rev_string_acc s' (String c acc)
  end.

Definition rev_string (s : string) : string := rev_string_acc s "".

(** Scans the reversed string; [cur] collects the field being read (already
    in reading order) and [acc] the fields completed so far.  Once
    [maxsplit] separators are used up the rest is one field. *)
Fixpoint rsplit_rev (sep : ascii) (maxsplit : nat) (r cur : string)
    (acc : list string) : list string :=
  match maxsplit with
  | O => rev_string_acc r cur :: acc
  | S n =>
      match r with
      | EmptyString => cur :: acc
      | String c r' =>
          if Ascii.eqb c sep
          then rsplit_rev sep n r' "" (cur :: acc)
          else rsplit_rev sep maxsplit r' (String c cur) acc
      end
  end.

Definition rsplit (s : string) (sep : ascii) (maxsplit : nat) : list string :=
  rsplit_rev sep maxsplit (rev_string s) "" [].

(** *** [int(s)] on a string: does the conversion succeed?

    A character of a [string] stands for the code point of the same number
    (below 256).  [int] accepts surrounding white space, one sign, and
    decimal digits that may be separated by single underscores.  The bound
    that recent interpreters put on the number of digits is left out. *)

Definition py_isspace (c : ascii) : bool :=
  let n := N_of_ascii c in
  ((9 <=? n) && (n <=? 13) || (n =? 32) || (n =? 133) || (n =? 160))%N.

Definition py_isdigit (c : ascii) : bool :=
  let n := N_of_ascii c in ((48 <=? n) && (n <=? 57))%N.

Fixpoint lstrip (s : string) : string :=
  match s with
  | EmptyString => EmptyString
  | String c s' => if py_isspace c then lstrip s' else s
  end.

Definition strip (s : string) : string :=
  rev_string (lstrip (rev_string (lstrip s))).

(** [prev] tells whether the previous character was a digit: an underscore
    needs a digit on both sides, and the literal ends on a digit. *)
Fixpoint digits_ok (s : string) (prev : bool) : bool :=
  match s with
  | EmptyString => prev
  | String c s' =>
      if py_isdigit c then digits_ok s' true
      else if Ascii.eqb c "_" then prev && digits_ok s' false
      else false
  end.

Definition py_int_ok (s : string) : bool :=
  match strip s with
  | EmptyString => false
  | String c t =>
      if Ascii.eqb c "+" || Ascii.eqb c "-" then digits_ok t false
      else digits_ok (String c t) false
  end.

(** [min(a, b)] and [max(a, b)] return the first argument unless the second
    is strictly smaller (larger). *)
Definition py_min (a b : Z) : Z := if b <? a then b else a.
Definition py_max (a b : Z) : Z := if b >? a then b else a.

Definition Qltb (a b : Q) : bool := negb (Qle_bool b a).
Definition py_minQ (a b : Q) : Q := if Qltb b a then b else a.

(** [int(x)] on a number truncates toward zero. *)
Definition py_int_of_Q (q : Q) : Z := Z.quot (Qnum q) (Z.pos (Qden q)).

(** [l[i]] on a list: negative indices count from the end. *)
Definition py_index {A} (l : list A) (i : Z) : res A :=
  let n := Z.of_nat (length l) in
  let k := if i <? 0 then i + n else i in
  if (k <? 0) || (n <=? k) then Raise IndexError
  else match l !! Z.to_nat k with
       | Some x => Ok x
       | None => Raise IndexError
       end.

(** ** The configuration object *)

(** [d.get(key, default)] *)
Definition dict_get (d : gmap string value) (key : string) (dflt : value) : value :=
  match d !! key with
  | Some v => v
  | None => dflt
  end.

(** What the file system does with one attempt to write the config file:
    the write and the chmod succeed; [open] raises [FileNotFoundError] and
    the data directory is indeed gone; [open] raises [FileNotFoundError]
    although the directory exists; any other failure. *)
Inductive write_outcome : Type :=
  | WriteOk
  | WriteDirGone
  | WriteNotFound
  | WriteError.

(** The instance attributes, together with the part of the outside world
    the methods touch: [fs] scripts the outcome of the coming write
    attempts (an exhausted script means the writes succeed) and [disk]
    records every content that a successful write put into the config
    file, oldest first; what a failed attempt leaves in the file is not
    recorded.
    [user_dir] is the directory the injected provider returns.  The lock is
    re-entrant and held by one thread here, so it is not represented. *)
Record SimpleConfig : Type := mkConfig {
  fee_estimates : list (Z * Q);
  user_dir : value;
  cmdline_options : gmap string value;
  user_config : gmap string value;
  path : value;
  fs : list write_outcome;
  disk : list (gmap string value)
}.

Definition with_cmdline_options (c : gmap string value) (st : SimpleConfig) :=
  mkConfig (fee_estimates st) (user_dir st) c (user_config st) (path st)
           (fs st) (disk st).
Definition with_user_config (u : gmap string value) (st : SimpleConfig) :=
  mkConfig (fee_estimates st) (user_dir st) (cmdline_options st) u (path st)
           (fs st) (disk st).
Definition with_path (p : value) (st : SimpleConfig) :=
  mkConfig (fee_estimates st) (user_dir st) (cmdline_options st)
           (user_config st) p (fs st) (disk st).
Definition with_fs (f : list write_outcome) (st : SimpleConfig) :=
  mkConfig (fee_estimates st) (user_dir st) (cmdline_options st)
           (user_config st) (path st) f (disk st).
Definition with_disk (d : list (gmap string value)) (st : SimpleConfig) :=
  mkConfig (fee_estimates st) (user_dir st) (cmdline_options st)
           (user_config st) (path st) (fs st) d.

(** *** Methods as state transformers that may raise *)

Definition M (A : Type) : Type := SimpleConfig -> res A * SimpleConfig.

Definition ret {A} (a : A) : M A := fun st => (Ok a, st).
Definition raise {A} (e : exn) : M A := fun st => (Raise e, st).
Definition bind {A B} (m : M A) (k : A -> M B) : M B :=
  fun st =>
    match m st with
    | (Ok a, st') => k a st'
    | (Raise e, st') => (Raise e, st')
    end.
Definition self : M SimpleConfig := fun st => (Ok st, st).
Definition update (f : SimpleConfig -> SimpleConfig) : M unit :=
  fun st => (Ok tt, f st).
Definition lift {A} (r : res A) : M A := fun st => (r, st).

(** [try: body except BaseException: handler] *)
Definition try_except {A} (body handler : M A) : M A :=
  fun st =>
    match body st with
    | (Ok a, st') => (Ok a, st')
    | (Raise _, st') => handler st'
    end.

#[global] Instance M_ret : MRet M := @ret.
#[global] Instance M_bind : MBind M := fun A B k m => bind m k.

(** Names this file imports from modules that are not part of it:
    [util.make_dir] (with [allow_symlink=False]; [true] when the call
    returns, [false] when it raises), [os.path.join], which depends on the
    platform, and the constant [bitcoin.MAX_FEE_RATE]. *)
Class Imports : Type := {
  make_dir : value -> bool;
  os_path_join : string -> string -> string;
  MAX_FEE_RATE : Z
}.

(** Modelled from the spec: [FEE_TARGETS] is imported from the [bitcoin]
    module, which is not among the sources; the spec gives the ordered list
    of confirmation targets for the levels 0 to 3 as [25, 10, 5, 2]. *)
Definition FEE_TARGETS : list Z := [25; 10; 5; 2].

Definition FINAL_CONFIG_VERSION : Z := 2.

Section Methods.
Context `{Imports}.

(** [get]: the command line wins unless it has no value or [None] there. *)
Definition get (st : SimpleConfig) (key : string) (dflt : value) : value :=
  let out := dict_get (cmdline_options st) key VNone in
  if is_none out then dict_get (user_config st) key dflt else out.

Definition is_modifiable (st : SimpleConfig) (key : string) : bool :=
  negb (bool_decide (key ∈ dom (cmdline_options st))).

(** [os.path.join(a, b)] where [b] is a string literal. *)
Definition path_join (a : value) (b : string) : res value :=
  match a with
  | VStr s => Ok (VStr (os_path_join s b))
  | _ => Raise TypeError
  end.

Definition save_user_config : M unit :=
  st ← self;
  if negb (py_truthy (path st)) then mret tt
  else
    _ ← lift (path_join (path st) "config");
    match fs st with
    | [] => update (with_disk (disk st ++ [user_config st]))
    | o :: rest =>
        update (with_fs rest);;
        match o with
        | WriteOk => update (with_disk (disk st ++ [user_config st]))
        | WriteDirGone => mret tt
        | WriteNotFound => raise FileNotFoundError
        | WriteError => raise OSError
        end
    end.

Definition _set_key_in_user_config (key : string) (v : value) (save : bool)
    : M unit :=
  st ← self;
  update (with_user_config
            (if negb (is_none v) then <[key := v]> (user_config st)
             else delete key (user_config st)));;
  if save then save_user_config else mret tt.

Definition set_key (key : string) (v : value) (save : bool) : M unit :=
  st ← self;
  if negb (is_modifiable st key) then mret tt
  else _set_key_in_user_config key v save.

(** [rename_config_keys(config, keypairs)]: the pairs are visited in order;
    the result is the flag [updated] and the dictionary after the in-place
    changes. *)
Definition rename_step (acc : bool * gmap string value)
    (kp : string * string) : bool * gmap string value :=
  let '(updated, config) := acc in
  let '(old_key, new_key) := kp in
  match config !! old_key with
  | Some v =>
      (true,
       delete old_key
         (match config !! new_key with
          | Some _ => config
          | None => <[new_key := v]> config
          end))
  | None => (updated, config)
  end.

Definition rename_config_keys (config : gmap string value)
    (keypairs : list (string * string)) : bool * gmap string value :=
  fold_left rename_step keypairs (false, config).

Definition do_make_dir (p : value) : M unit :=
  if make_dir p then mret tt else raise (Exception "make_dir").

Definition electrum_path : M value :=
  st ← self;
  let p0 := get st "electrum_path" VNone in
  let p := if is_none p0 then user_dir st else p0 in
  do_make_dir p;;
  if py_truthy (get st "testnet" VNone) then
    p' ← lift (path_join p "testnet");
    do_make_dir p';;
    mret p'
  else if py_truthy (get st "regtest" VNone) then
    p' ← lift (path_join p "regtest");
    do_make_dir p';;
    mret p'
  else mret p.

(** The warning printed for a version above ours changes nothing here; the
    comparison itself raises on a value that is not a number. *)
Definition get_config_version : M value :=
  st ← self;
  let config_version := get st "config_version" (VInt 1) in
  _ ← lift (py_gt config_version FINAL_CONFIG_VERSION);
  mret config_version.

Definition requires_upgrade : M bool :=
  v ← get_config_version;
  lift (py_lt v FINAL_CONFIG_VERSION).

Definition _is_upgrade_method_needed (min_version max_version : Z) : M bool :=
  cur_version ← get_config_version;
  above ← lift (py_gt cur_version max_version);
  if (above : bool) then mret false
  else
    below ← lift (py_lt cur_version min_version);
    if (below : bool) then raise (Exception "config upgrade: unexpected version")
    else mret true.

(** The [try] statement of [convert_version_2]: the server string goes
    from [host:port:proto] to [host:port:s]; whatever is raised in the body,
    by the parsing or by saving, is caught and the key is removed. *)
Definition convert_server : M unit :=
  try_except
    (st ← self;
     let server_str := dict_get (user_config st) "server" VNone in
     match rsplit (py_str server_str) ":" 2 with
     | [host; port; protocol] =>
         if negb (String.eqb protocol "s" || String.eqb protocol "t")
         then raise AssertionError
         else if negb (py_int_ok port) then raise ValueError
         else _set_key_in_user_config "server"
                (VStr (host ++ ":" ++ port ++ ":s")) true
     | _ => raise ValueError
     end)
    (_set_key_in_user_config "server" VNone true).

Definition convert_version_2 : M unit :=
  needed ← _is_upgrade_method_needed 1 1;
  if negb needed then mret tt
  else
    st ← self;
    update (with_user_config
              (snd (rename_config_keys (user_config st)
                      [("auto_cycle", "auto_connect")])));;
    convert_server;;
    set_key "config_version" (VInt 2) true.

Definition upgrade : M unit :=
  convert_version_2;;
  set_key "config_version" (VInt FINAL_CONFIG_VERSION) true.

(** The constructor.  [options] is the command-line dictionary or [None];
    the reader and the directory provider are the injected functions (the
    provider takes no argument, so it is given by its result); [fs0] is what
    the file system will do.  [new_object] is the object after the first
    assignments, with [path] still unset; [set_config(self)] only registers
    the finished object in a module-level variable. *)
Definition new_object (options : option (gmap string value))
    (read_user_dir_function : value) (fs0 : list write_outcome)
    : SimpleConfig :=
  let options := match options with Some o => o | None => ∅ end in
  {| fee_estimates := [];
     user_dir := read_user_dir_function;
     cmdline_options := delete "config_version" options;
     user_config := ∅;
     path := VNone;
     fs := fs0;
     disk := [] |}.

Definition __init__ (options : option (gmap string value))
    (read_user_config_function : value -> option (gmap string value))
    (read_user_dir_function : value)
    (fs0 : list write_outcome) : res unit * SimpleConfig :=
  let body : M unit :=
    p ← electrum_path;
    update (with_path p);;
    update (with_user_config
              (match read_user_config_function p with
               | Some u =>
                   if bool_decide (u = ∅)
                   then {[ "config_version" := VInt FINAL_CONFIG_VERSION ]}
                   else u
               | None => {[ "config_version" := VInt FINAL_CONFIG_VERSION ]}
               end));;
    st ← self;
    update (with_cmdline_options
              (snd (rename_config_keys (cmdline_options st)
                      [("auto_cycle", "auto_connect")])));;
    up ← requires_upgrade;
    if (up : bool) then upgrade else mret tt in
  body (new_object options read_user_dir_function fs0).

(** *** Fee estimation *)

(** [self.fee_estimates.get(j)] *)
Fixpoint fee_get (l : list (Z * Q)) (j : Z) : option Q :=
  match l with
  | [] => None
  | (k, f) :: l' => if k =? j then Some f else fee_get l' j
  end.

Definition max_fee_rate (st : SimpleConfig) : value :=
  let f := get st "max_fee_rate" (VInt MAX_FEE_RATE) in
  if py_eq_zero f then VInt MAX_FEE_RATE else f.

(** Fee rates are numbers; they are computed with as exact rationals, so
    [fee/2], [0.4] and [0.06] carry no rounding. *)
Definition dynfee (st : SimpleConfig) (i : Z) : res (option Q) :=
  let clamp (fee : option Q) :=
    match fee with
    | Some f => Some (py_minQ (inject_Z (5 * MAX_FEE_RATE)) f)
    | None => None
    end in
  if i <? 4 then
    match py_index FEE_TARGETS i with
    | Ok j => Ok (clamp (fee_get (fee_estimates st) j))
    | Raise e => Raise e
    end
  else if negb (i =? 4) then Raise AssertionError
  else
    let fee := fee_get (fee_estimates st) 2 in
    let fee := match fee with
               | Some f => Some (f + f / inject_Z 2)%Q
               | None => None
               end in
    Ok (clamp fee).

Definition has_fee_estimates (st : SimpleConfig) : bool :=
  (length (fee_estimates st) =? 4)%nat.

(** [a and b] is [a] when [a] is false, else [b]. *)
Definition is_dynfee (st : SimpleConfig) : value :=
  let d := get st "dynamic_fees" (VBool false) in
  if py_truthy d then VBool (has_fee_estimates st) else d.

(** [==] between two results of [dict.get]: [None] equals only [None]. *)
Definition opt_num_eq (a b : option Q) : bool :=
  match a, b with
  | Some x, Some y => Qeq_bool x y
  | None, None => true
  | _, _ => false
  end.

(** [x[1] - fee_per_kb] raises on [None]. *)
Fixpoint distances (fee_per_kb : Q) (l : list (Z * option Q))
    : res (list (Z * Q)) :=
  match l with
  | [] => Ok []
  | (t, Some f) :: l' =>
      match distances fee_per_kb l' with
      | Ok r => Ok ((t, Qabs (f - fee_per_kb)) :: r)
      | Raise e => Raise e
      end
  | (_, None) :: _ => Raise TypeError
  end.

(** [min(dist, key=operator.itemgetter(1))] keeps the first of the
    smallest; [best] is the smallest seen so far. *)
Fixpoint min_by_snd (best : Z * Q) (l : list (Z * Q)) : Z * Q :=
  match l with
  | [] => best
  | x :: l' => min_by_snd (if Qltb (snd x) (snd best) then x else best) l'
  end.

(** The [else] branch of [reverse_dynfee]. *)
Definition nearest_target (st : SimpleConfig) (fee_per_kb : Q) : res Z :=
  match dynfee st 4 with
  | Raise e => Raise e
  | Ok top =>
      let l := (map (fun x => (fst x, Some (snd x))) (fee_estimates st)
                ++ [(1, top)])%list in
      match distances fee_per_kb l with
      | Raise e => Raise e
      | Ok [] => Raise ValueError
      | Ok (d :: dist) =>
          let min_target := fst (min_by_snd d dist) in
          match fee_get (fee_estimates st) 25 with
          | None => Raise TypeError
          | Some f25 =>
              if Qltb fee_per_kb (f25 / inject_Z 2)%Q then Ok (-1)
              else Ok min_target
          end
      end
  end.

(** The condition is a chain of [and]: the comparison with the 5-block
    sample is evaluated only after the two before it held, and raises when
    that sample is [None]. *)
Definition reverse_dynfee (st : SimpleConfig) (fee_per_kb : Q) : res Z :=
  let e25 := fee_get (fee_estimates st) 25 in
  let e5 := fee_get (fee_estimates st) 5 in
  let condition : res bool :=
    if py_truthy (is_dynfee st) && opt_num_eq e25 e5 then
      match e5 with
      | None => Raise TypeError
      | Some f5 => Ok (Qle_bool f5 fee_per_kb)
      end
    else Ok false in
  match condition with
  | Raise e => Raise e
  | Ok true => Ok 5
  | Ok false => nearest_target st fee_per_kb
  end.

Definition num_of (v : value) : res Q :=
  match as_int v with
  | Some z => Ok (inject_Z z)
  | None => Raise TypeError
  end.

Definition static_fee_index (st : SimpleConfig) (v : Q) : res Z :=
  match num_of (max_fee_rate st) with
  | Raise e => Raise e
  | Ok m =>
      if Qeq_bool m 0 then Raise ZeroDivisionError
      else
        let index :=
          py_int_of_Q ((v - m * (4 # 10)) / m * (6 # 100))%Q in
        let index := py_min 0 index in
        let index := py_max 10 index in
        Ok index
  end.

End Methods.

(** ** Derived accessors and the rest of the fee methods *)

(** What [fee_per_kb] returns: a value as it is stored in the settings
    ([None] included, which is also what [dynfee] returns for an absent
    sample), or a number it has computed. *)
Inductive fee_rate : Type :=
  | RateValue (v : value)
  | RateNumber (q : Q).

Section Accessors.
Context `{Imports}.

(** The message is formatted with [%d], so [seconds] is a number. *)
Definition set_session_timeout (seconds : Z) : M unit :=
  set_key "session_timeout" (VInt seconds) true.

Definition get_session_timeout (st : SimpleConfig) : value :=
  get st "session_timeout" (VInt 300).

(** [os_path_exists] answers [os.path.exists] for the file system of the
    moment.  The method writes into [cmdline_options]. *)
Definition open_last_wallet (os_path_exists : value -> bool) : M unit :=
  st ← self;
  if is_none (get st "wallet_path" VNone) then
    let last_wallet := get st "gui_last_wallet" VNone in
    if negb (is_none last_wallet) && os_path_exists last_wallet then
      update (with_cmdline_options
                (<["default_wallet_path" := last_wallet]>
                   (cmdline_options st)))
    else mret tt
  else mret tt.

(** [wallet_storage_path] is [wallet.storage.path]. *)
Definition save_last_wallet (wallet_storage_path : value) : M unit :=
  st ← self;
  if is_none (get st "wallet_path" VNone) then
    set_key "gui_last_wallet" wallet_storage_path true
  else mret tt.

(** [device == 'default'] holds for that string only. *)
Definition get_video_device (st : SimpleConfig) : value :=
  let device := get st "video_device" (VStr "default") in
  match device with
  | VStr s => if String.eqb s "default" then VStr "" else device
  | _ => device
  end.

Definition static_fee (st : SimpleConfig) (i : Z) : res Q :=
  match num_of (max_fee_rate st) with
  | Raise e => Raise e
  | Ok m => Ok (m * (4 # 10) + m * (6 # 100) * inject_Z i)%Q
  end.

(** The default handed to [get] is computed before the lookup, so a
    [max_fee_rate] that is not a number raises even when [fee_per_kb] is
    set; the lookup itself is that of [get] with a number as default. *)
Definition fee_per_kb (st : SimpleConfig) : res fee_rate :=
  let dyn := is_dynfee st in
  if py_truthy dyn then
    match as_int (get st "fee_level" (VInt 2)) with
    | None => Raise TypeError
    | Some i =>
        match dynfee st i with
        | Raise e => Raise e
        | Ok (Some f) => Ok (RateNumber f)
        | Ok None => Ok (RateValue VNone)
        end
    end
  else
    match num_of (max_fee_rate st) with
    | Raise e => Raise e
    | Ok m =>
        let out := dict_get (cmdline_options st) "fee_per_kb" VNone in
        if is_none out then
          match user_config st !! "fee_per_kb" with
          | Some v => Ok (RateValue v)
          | None => Ok (RateNumber (m / inject_Z 2)%Q)
          end
        else Ok (RateValue out)
    end.

End Accessors.

(** ** Vocabulary of the statements *)

(** A write attempt with this outcome makes [save_user_config] raise. *)
Definition write_raises (o : write_outcome) : bool :=
  match o with
  | WriteOk | WriteDirGone => false
  | WriteNotFound | WriteError => true
  end.

(** [self.path] is a string, or false so that nothing is saved. *)
Definition path_ok (p : value) : bool :=
  match p with
  | VStr _ => true
  | v => negb (py_truthy v)
  end.

(** The file system accepts every write that will be attempted. *)
Definition quiet (st : SimpleConfig) : bool :=
  path_ok (path st) && forallb (fun o => negb (write_raises o)) (fs st).

(** Does the character occur in the string? *)
Fixpoint contains (c : ascii) (s : string) : bool :=
  match s with
  | EmptyString => false
  | String a s' => Ascii.eqb a c || contains c s'
  end.

(** The legacy server form the spec describes: [host:port:protocol] with
    a port that [int] accepts and a protocol that is [s] or [t].  Host and
    port are what surrounds the last two colons. *)
Definition legacy_server (s host port protocol : string) : Prop :=
  s = host ++ ":" ++ port ++ ":" ++ protocol /\
  py_int_ok port = true /\
  (protocol = "s" \/ protocol = "t").

(** The effect of the rename of [auto_cycle] on a dictionary. *)
Definition renamed (m : gmap string value) : gmap string value :=
  snd (rename_config_keys m [("auto_cycle", "auto_connect")]).

(** The effect of [convert_server] on the persisted settings when the
    file system accepts the writes. *)
Definition server_converted (m : gmap string value) : gmap string value :=
  match rsplit (py_str (dict_get m "server" VNone)) ":" 2 with
  | [host; port; protocol] =>
      if (String.eqb protocol "s" || String.eqb protocol "t")
         && py_int_ok port
      then <["server" := VStr (host ++ ":" ++ port ++ ":s")]> m
      else delete "server" m
  | _ => delete "server" m
  end.

(** The persisted settings right after the reader ran: an empty or absent
    result is replaced by a dictionary that is already at the final
    version. *)
Definition loaded_settings (o : option (gmap string value))
    : gmap string value :=
  match o with
  | Some u =>
      if bool_decide (u = ∅)
      then {[ "config_version" := VInt FINAL_CONFIG_VERSION ]}
      else u
  | None => {[ "config_version" := VInt FINAL_CONFIG_VERSION ]}
  end.

(** The object the constructor has built when it reaches the upgrade
    check: path [p] resolved, settings [u] loaded, command line renamed,
    nothing written. *)
Definition settled (options : option (gmap string value)) (dir : value)
    (fs0 : list write_outcome) (p : value) (u : gmap string value)
    : SimpleConfig :=
  {| fee_estimates := [];
     user_dir := dir;
     cmdline_options :=
       renamed (delete "config_version"
                  (match options with Some o => o | None => ∅ end));
     user_config := u;
     path := p;
     fs := fs0;
     disk := [] |}.

(** The loaded settings carry a version above the final one. *)
Definition version_above (o : option (gmap string value)) : Prop :=
  exists u v z, o = Some u /\ u !! "config_version" = Some v /\
    as_int v = Some z /\ FINAL_CONFIG_VERSION < z.

(** The legacy settings of the spec's example and their migrated form. *)
Definition legacy_example : gmap string value :=
  <["config_version" := VInt 1]>
    (<["auto_cycle" := VBool true]>
       (<["server" := VStr "host:50001:t"]> ∅)).

Definition migrated_example : gmap string value :=
  <["config_version" := VInt 2]>
    (<["auto_connect" := VBool true]>
       (<["server" := VStr "host:50001:s"]> ∅)).

(** The fee sample map holds all four samples: exactly four entries, one
    for each confirmation target. *)
Definition complete_samples (st : SimpleConfig) : bool :=
  (length (fee_estimates st) =? 4)%nat
  && forallb (fun t => bool_decide (is_Some (fee_get (fee_estimates st) t)))
       FEE_TARGETS.

(** The user has switched dynamic fees on. *)
Definition dynamic_fees_enabled (st : SimpleConfig) : Prop :=
  py_truthy (get st "dynamic_fees" (VBool false)) = true.

(** The candidates of [reverse_dynfee]: the known samples in the order of
    the dictionary, then the synthetic pair for target 1. *)
Definition candidates (st : SimpleConfig) (top : Q) : list (Z * Q) :=
  (fee_estimates st ++ [(1, top)])%list.

(** [t] is the target of the candidate nearest to [rate]: its fee is at
    least as close as every other and strictly closer than every candidate
    seen before it. *)
Definition nearest (rate : Q) (l : list (Z * Q)) (t : Z) : Prop :=
  exists (i : nat) (f : Q),
    l !! i = Some (t, f) /\
    (forall j t' f', l !! j = Some (t', f') ->
       (Qabs (f - rate) <= Qabs (f' - rate))%Q) /\
    (forall j t' f', (j < i)%nat -> l !! j = Some (t', f') ->
       (Qabs (f - rate) < Qabs (f' - rate))%Q).

(** An object with complete samples and dynamic fees switched on. *)
Definition flat_market : SimpleConfig :=
  {| fee_estimates :=
       [(25, inject_Z 500); (10, inject_Z 600); (5, inject_Z 500);
        (2, inject_Z 1000)];
     user_dir := VStr "/data";
     cmdline_options := ∅;
     user_config := {[ "dynamic_fees" := VBool true ]};
     path := VStr "/data";
     fs := [];
     disk := [] |}.

(** The directory [electrum_path] starts from: the [electrum_path] option
    when it has a value, the user's data directory otherwise. *)
Definition base_path (st : SimpleConfig) : value :=
  if is_none (get st "electrum_path" VNone) then user_dir st
  else get st "electrum_path" VNone.

(** Every scripted write succeeds and [self.path] is a string that is not
    empty, so each save reaches the disk. *)
Definition accepting (st : SimpleConfig) : bool :=
  match path st with VStr s => negb (String.eqb s "") | _ => false end
  && forallb (fun o => match o with WriteOk => true | _ => false end) (fs st).

(** A save attempted now raises: the path is true but not a string, or the
    file system refuses the next write.  With no path nothing is attempted
    and nothing can raise. *)
Definition save_refused (st : SimpleConfig) : bool :=
  match path st with
  | VStr s =>
      if String.eqb s "" then false
      else match fs st with
           | o :: _ => write_raises o
           | [] => false
           end
  | v => py_truthy v
  end.

(** A concrete environment for the examples: directories can be created,
    paths are joined with a slash, the fee ceiling is 300000. *)
Definition posix : Imports :=
  {| make_dir := fun _ => true;
     os_path_join := fun a b => a ++ "/" ++ b;
     MAX_FEE_RATE := 300000 |}.

(** An object with the given two dictionaries, stored under [/data]. *)
Definition config_of (cmdline persisted : gmap string value) : SimpleConfig :=
  {| fee_estimates := [];
     user_dir := VStr "/data";
     cmdline_options := cmdline;
     user_config := persisted;
     path := VStr "/data";
     fs := [];
     disk := [] |}.

(** ** Running the monad *)

Lemma run_bind {A B} (m : M A) (k : A -> M B) st :
  (m ≫= k) st =
  match m st with
  | (Ok a, st') => k a st'
  | (Raise e, st') => (Raise e, st')
  end.
Proof. reflexivity. Qed.

Lemma run_ret {A} (a : A) st : (mret a : M A) st = (Ok a, st).
Proof. reflexivity. Qed.

Lemma dict_get_Some d key dflt v : d !! key = Some v -> dict_get d key dflt = v.
Proof. unfold dict_get. intros ->. reflexivity. Qed.

Lemma dict_get_None d key dflt : d !! key = None -> dict_get d key dflt = dflt.
Proof. unfold dict_get. intros ->. reflexivity. Qed.

Lemma get_unset st key dflt :
  cmdline_options st !! key = None ->
  get st key dflt = dict_get (user_config st) key dflt.
Proof. intros Hc. unfold get. rewrite (dict_get_None _ _ _ Hc). reflexivity. Qed.

(** One step of a computation: run the first action of a bind. *)
Ltac run_self := rewrite run_bind; unfold self at 1; cbv beta iota zeta.
Ltac run_update := rewrite run_bind; unfold update at 1; cbv beta iota zeta.
Ltac run_lift := rewrite run_bind; unfold lift at 1; cbv beta iota zeta.

Section Store.
Context `{Imports}.

(** What [save_user_config] leaves alone, whatever the file system does. *)
Lemma save_user_config_frame st :
  exists r st', save_user_config st = (r, st') /\
    cmdline_options st' = cmdline_options st /\
    user_config st' = user_config st /\
    path st' = path st /\
    fee_estimates st' = fee_estimates st.
Proof.
  unfold save_user_config. run_self.
  destruct (negb (py_truthy (path st))); [do 2 eexists; split; [reflexivity | auto] |].
  run_lift.
  destruct (path_join (path st) "config");
    [| do 2 eexists; split; [reflexivity | auto]].
  destruct (fs st) as [| o rest];
    [do 2 eexists; split; [reflexivity | auto] |].
  destruct o; do 2 eexists; (split; [reflexivity | auto]).
Qed.

Lemma save_user_config_quiet st :
  quiet st = true ->
  exists st', save_user_config st = (Ok tt, st') /\ quiet st' = true /\
    cmdline_options st' = cmdline_options st /\
    user_config st' = user_config st.
Proof.
  unfold quiet. intros [Hp Hfs]%andb_true_iff.
  unfold save_user_config. run_self.
  destruct (negb (py_truthy (path st))) eqn:Ht.
  { exists st. rewrite run_ret. unfold quiet. rewrite Hp, Hfs. auto. }
  destruct (path st) as [| b | z | s] eqn:Hpath; cbn in Hp, Ht; try congruence.
  run_lift. cbn [path_join].
  destruct (fs st) as [| o rest] eqn:Hf.
  - eexists. split; [reflexivity |]. unfold quiet. cbn. rewrite Hpath, Hf. auto.
  - cbn in Hfs. apply andb_true_iff in Hfs as [Ho Hrest].
    destruct o; cbn in Ho; try discriminate.
    + eexists. split; [reflexivity |]. unfold quiet. cbn. rewrite Hpath. auto.
    + eexists. split; [reflexivity |]. unfold quiet. cbn. rewrite Hpath. auto.
Qed.

Lemma _set_key_in_user_config_frame key v save st :
  exists r st', _set_key_in_user_config key v save st = (r, st') /\
    cmdline_options st' = cmdline_options st /\
    user_config st' =
      (if negb (is_none v) then <[key := v]> (user_config st)
       else delete key (user_config st)) /\
    path st' = path st.
Proof.
  unfold _set_key_in_user_config. run_self. run_update.
  destruct save.
  - match goal with |- context [save_user_config ?s] =>
      destruct (save_user_config_frame s) as (r & st' & Hs & Hc & Hu & Hp & _)
    end.
    exists r, st'. rewrite Hs, Hc, Hu, Hp. auto.
  - do 2 eexists; split; [reflexivity | auto].
Qed.

Lemma _set_key_in_user_config_quiet key v st :
  quiet st = true ->
  exists st', _set_key_in_user_config key v true st = (Ok tt, st') /\
    quiet st' = true /\
    cmdline_options st' = cmdline_options st /\
    user_config st' =
      (if negb (is_none v) then <[key := v]> (user_config st)
       else delete key (user_config st)).
Proof.
  intros Hq.
  unfold _set_key_in_user_config. run_self. run_update.
  match goal with |- context [save_user_config ?s] =>
    destruct (save_user_config_quiet s) as (st' & Hs & Hq' & Hc & Hu) end.
  { exact Hq. }
  exists st'. rewrite Hs. auto.
Qed.

Lemma _set_key_in_user_config_unsaved key v st :
  _set_key_in_user_config key v false st =
  (Ok tt,
   with_user_config
     (if negb (is_none v) then <[key := v]> (user_config st)
      else delete key (user_config st)) st).
Proof. reflexivity. Qed.

Lemma is_modifiable_true st key :
  is_modifiable st key = true <-> cmdline_options st !! key = None.
Proof.
  unfold is_modifiable. rewrite negb_true_iff, bool_decide_eq_false.
  rewrite not_elem_of_dom. reflexivity.
Qed.

Lemma is_modifiable_false st key :
  is_modifiable st key = false <-> is_Some (cmdline_options st !! key).
Proof.
  unfold is_modifiable. rewrite negb_false_iff, bool_decide_eq_true.
  apply elem_of_dom.
Qed.

Lemma set_key_modifiable key v save st :
  cmdline_options st !! key = None ->
  set_key key v save st = _set_key_in_user_config key v save st.
Proof.
  intros Hc. unfold set_key. run_self.
  apply is_modifiable_true in Hc. rewrite Hc. reflexivity.
Qed.

Lemma set_key_fixed key v save st :
  is_Some (cmdline_options st !! key) -> set_key key v save st = (Ok tt, st).
Proof.
  intros Hc. unfold set_key. run_self.
  apply is_modifiable_false in Hc. rewrite Hc. reflexivity.
Qed.

End Store.

(** ** Reading and writing keys *)

(** C1. [get(key, default)] returns the command-line value when the key is
    present there with a value other than [None]; otherwise the persisted
    value when the key is present in the persisted settings; otherwise the
    given default. *)
Theorem get_precedence (st : SimpleConfig) (key : string) (dflt : value) :
  (forall v, cmdline_options st !! key = Some v -> v <> VNone ->
     get st key dflt = v) /\
  (forall u,
     cmdline_options st !! key = None \/
     cmdline_options st !! key = Some VNone ->
     user_config st !! key = Some u -> get st key dflt = u) /\
  (cmdline_options st !! key = None \/
   cmdline_options st !! key = Some VNone ->
   user_config st !! key = None -> get st key dflt = dflt).
Proof.
  unfold get, dict_get. repeat split.
  - intros v -> Hv. destruct v; cbn; congruence.
  - intros u [-> | ->] ->; reflexivity.
  - intros [-> | ->] ->; reflexivity.
Qed.

(** C2. A key given on the command line cannot be changed: [set_key]
    returns and leaves the object as it was, and [is_modifiable] says
    exactly that the key is not on the command line.  For any other key,
    [set_key] with a value other than [None] stores it in the persisted
    settings, so that [get] then returns it, and [set_key] with [None]
    removes the key, so that [get] then returns the default.  The call
    returns normally when nothing is saved or the file system accepts the
    write. *)
Theorem set_key_contract `{Imports} (st : SimpleConfig) (key : string)
    (v : value) (save : bool) :
  (is_modifiable st key = true <-> cmdline_options st !! key = None) /\
  (is_Some (cmdline_options st !! key) ->
     set_key key v save st = (Ok tt, st)) /\
  (cmdline_options st !! key = None ->
     exists r st', set_key key v save st = (r, st') /\
       (save = false \/ quiet st = true -> r = Ok tt) /\
       cmdline_options st' = cmdline_options st /\
       (v <> VNone ->
          user_config st' = <[key := v]> (user_config st) /\
          forall d, get st' key d = v) /\
       (v = VNone ->
          user_config st' = delete key (user_config st) /\
          forall d, get st' key d = d)).
Proof.
  split; [apply is_modifiable_true |].
  split; [apply set_key_fixed |].
  intros Hc. rewrite (set_key_modifiable _ _ _ _ Hc).
  destruct (_set_key_in_user_config_frame key v save st)
    as (r & st' & Hrun & Hc' & Hu & _).
  exists r, st'. split; [exact Hrun |].
  split.
  { intros [-> | Hq].
    - rewrite _set_key_in_user_config_unsaved in Hrun. congruence.
    - destruct save.
      + destruct (_set_key_in_user_config_quiet key v st Hq) as (s & Hs & _).
        congruence.
      + rewrite _set_key_in_user_config_unsaved in Hrun. congruence. }
  split; [exact Hc' |].
  split.
  - intros Hv. assert (is_none v = false) as Hn by (destruct v; cbn; congruence).
    rewrite Hn in Hu. cbn in Hu. split; [exact Hu |].
    intros d. rewrite get_unset by congruence.
    rewrite Hu. apply dict_get_Some, lookup_insert_eq.
  - intros ->. cbn in Hu. split; [exact Hu |].
    intros d. rewrite get_unset by congruence.
    rewrite Hu. apply dict_get_None, lookup_delete_eq.
Qed.

(** ** Strings: reversal and [rsplit] *)

Lemma append_nil_l (t : string) : "" ++ t = t.
Proof. reflexivity. Qed.

Lemma append_cons c (s t : string) : String c s ++ t = String c (s ++ t).
Proof. reflexivity. Qed.

Ltac norm_append := rewrite ?append_cons, ?append_nil_l.

Lemma append_nil_r (s : string) : s ++ "" = s.
Proof.
  induction s as [| c s IH]; norm_append; [| rewrite IH]; reflexivity.
Qed.

Lemma append_assoc (a b c : string) : (a ++ b) ++ c = a ++ (b ++ c).
Proof.
  induction a as [| x a IH]; norm_append; [| rewrite IH]; reflexivity.
Qed.

Lemma rev_string_acc_app (s acc : string) :
  rev_string_acc s acc = rev_string s ++ acc.
Proof.
  unfold rev_string. revert acc.
  induction s as [| c s IH]; intros acc; cbn [rev_string_acc];
    [reflexivity |].
  rewrite (IH (String c acc)), (IH (String c "")), append_assoc.
  norm_append. reflexivity.
Qed.

Lemma rev_string_cons c (s : string) :
  rev_string (String c s) = rev_string s ++ String c "".
Proof. unfold rev_string at 1. cbn [rev_string_acc]. apply rev_string_acc_app. Qed.

Lemma rev_string_app (a b : string) :
  rev_string (a ++ b) = rev_string b ++ rev_string a.
Proof.
  induction a as [| c a IH]; norm_append.
  - change (rev_string "") with "". rewrite append_nil_r. reflexivity.
  - rewrite !rev_string_cons, IH, append_assoc. reflexivity.
Qed.

Lemma rev_string_involutive (s : string) : rev_string (rev_string s) = s.
Proof.
  induction s as [| c s IH]; [reflexivity |].
  rewrite rev_string_cons, rev_string_app, IH. reflexivity.
Qed.

Lemma contains_app c (a b : string) :
  contains c (a ++ b) = contains c a || contains c b.
Proof.
  induction a as [| x a IH]; norm_append; cbn [contains]; [reflexivity |].
  rewrite IH, orb_assoc. reflexivity.
Qed.

Lemma contains_rev c (s : string) : contains c (rev_string s) = contains c s.
Proof.
  induction s as [| x s IH]; [reflexivity |].
  rewrite rev_string_cons, contains_app, IH.
  cbn [contains]. rewrite orb_false_r, orb_comm. reflexivity.
Qed.

Lemma rsplit_rev_rest sep r cur acc :
  rsplit_rev sep 0 r cur acc = rev_string_acc r cur :: acc.
Proof. destruct r; reflexivity. Qed.

Lemma rsplit_rev_last sep n r cur acc :
  contains sep r = false ->
  rsplit_rev sep (S n) r cur acc = rev_string_acc r cur :: acc.
Proof.
  revert cur. induction r as [| c r IH]; intros cur Hr; [reflexivity |].
  cbn in Hr. apply orb_false_iff in Hr as [Hc Hr].
  cbn. rewrite Hc. apply IH, Hr.
Qed.

Lemma rsplit_rev_cut sep n r1 r2 cur acc :
  contains sep r1 = false ->
  rsplit_rev sep (S n) (r1 ++ String sep r2) cur acc =
  rsplit_rev sep n r2 "" (rev_string_acc r1 cur :: acc).
Proof.
  revert cur. induction r1 as [| c r1 IH]; intros cur Hr; norm_append.
  - cbn [rsplit_rev rev_string_acc]. rewrite Ascii.eqb_refl. reflexivity.
  - cbn in Hr. apply orb_false_iff in Hr as [Hc Hr].
    cbn [rsplit_rev rev_string_acc]. rewrite Hc. apply IH, Hr.
Qed.

Lemma first_separator sep (r : string) :
  contains sep r = false \/
  exists r1 r2, r = r1 ++ String sep r2 /\ contains sep r1 = false.
Proof.
  induction r as [| c r IH]; [left; reflexivity |].
  destruct (Ascii.eqb c sep) eqn:Hc.
  - right. exists "", r. apply Ascii.eqb_eq in Hc. subst c. auto.
  - destruct IH as [Hr | (r1 & r2 & -> & Hr1)].
    + left. cbn. rewrite Hc, Hr. reflexivity.
    + right. exists (String c r1), r2. cbn. rewrite Hc, Hr1. auto.
Qed.

Lemma rsplit_three (h p q : string) :
  contains ":" p = false -> contains ":" q = false ->
  rsplit (h ++ ":" ++ p ++ ":" ++ q) ":" 2 = [h; p; q].
Proof.
  intros Hp Hq. unfold rsplit.
  rewrite !rev_string_app. change (rev_string ":") with ":".
  rewrite !append_assoc. norm_append.
  rewrite rsplit_rev_cut by (rewrite contains_rev; exact Hq).
  rewrite rsplit_rev_cut by (rewrite contains_rev; exact Hp).
  rewrite rsplit_rev_rest, !rev_string_acc_app, !append_nil_r.
  rewrite !rev_string_involutive. reflexivity.
Qed.

Lemma rsplit_three_inv (s h p q : string) :
  rsplit s ":" 2 = [h; p; q] ->
  s = h ++ ":" ++ p ++ ":" ++ q /\
  contains ":" p = false /\ contains ":" q = false.
Proof.
  unfold rsplit. intros Hs.
  destruct (first_separator ":" (rev_string s)) as [Hn | (r1 & r & Hr & Hr1)].
  { rewrite rsplit_rev_last in Hs by exact Hn. discriminate. }
  rewrite Hr, rsplit_rev_cut in Hs by exact Hr1.
  destruct (first_separator ":" r) as [Hn | (r2 & r3 & -> & Hr2)].
  { rewrite rsplit_rev_last in Hs by exact Hn. discriminate. }
  rewrite rsplit_rev_cut, rsplit_rev_rest in Hs by exact Hr2.
  rewrite !rev_string_acc_app, !append_nil_r in Hs.
  injection Hs as <- <- <-.
  rewrite !contains_rev. split; [| auto].
  rewrite <- (rev_string_involutive s), Hr.
  rewrite rev_string_app, rev_string_cons, rev_string_app, rev_string_cons.
  rewrite !append_assoc. norm_append. reflexivity.
Qed.

Lemma rsplit_no_colon (s : string) :
  contains ":" s = false -> rsplit s ":" 2 = [s].
Proof.
  intros Hs. unfold rsplit.
  rewrite rsplit_rev_last by (rewrite contains_rev; exact Hs).
  rewrite rev_string_acc_app, append_nil_r, rev_string_involutive.
  reflexivity.
Qed.

Lemma space_not_colon c : py_isspace c = true -> Ascii.eqb c ":" = false.
Proof.
  intros Hc. destruct (Ascii.eqb c ":") eqn:E; [| reflexivity].
  apply Ascii.eqb_eq in E. subst c. discriminate Hc.
Qed.

Lemma digit_not_colon c : py_isdigit c = true -> Ascii.eqb c ":" = false.
Proof.
  intros Hc. destruct (Ascii.eqb c ":") eqn:E; [| reflexivity].
  apply Ascii.eqb_eq in E. subst c. discriminate Hc.
Qed.

Lemma contains_lstrip (s : string) :
  contains ":" (lstrip s) = contains ":" s.
Proof.
  induction s as [| c s IH]; [reflexivity |].
  cbn [lstrip contains]. destruct (py_isspace c) eqn:Hc; [| reflexivity].
  rewrite (space_not_colon c Hc), IH. reflexivity.
Qed.

Lemma contains_strip (s : string) : contains ":" (strip s) = contains ":" s.
Proof.
  unfold strip.
  rewrite contains_rev, contains_lstrip, contains_rev, contains_lstrip.
  reflexivity.
Qed.

Lemma digits_ok_no_colon (s : string) (prev : bool) :
  digits_ok s prev = true -> contains ":" s = false.
Proof.
  revert prev. induction s as [| c s IH]; intros prev Hs; [reflexivity |].
  cbn [digits_ok] in Hs. cbn [contains].
  destruct (py_isdigit c) eqn:Hd.
  - rewrite (digit_not_colon c Hd). exact (IH _ Hs).
  - destruct (Ascii.eqb c "_") eqn:Hu; [| discriminate].
    apply Ascii.eqb_eq in Hu. subst c.
    apply andb_true_iff in Hs as [_ Hs]. exact (IH _ Hs).
Qed.

Lemma py_int_ok_no_colon (s : string) :
  py_int_ok s = true -> contains ":" s = false.
Proof.
  unfold py_int_ok. intros Hs. rewrite <- contains_strip.
  destruct (strip s) as [| c t]; [discriminate |].
  destruct (Ascii.eqb c "+" || Ascii.eqb c "-") eqn:Hsign.
  - cbn [contains]. rewrite (digits_ok_no_colon _ _ Hs), orb_false_r.
    apply orb_true_iff in Hsign as [E | E]; apply Ascii.eqb_eq in E;
      subst c; reflexivity.
  - exact (digits_ok_no_colon _ _ Hs).
Qed.

Lemma string_of_uint_no_colon (d : Decimal.uint) :
  contains ":" (NilEmpty.string_of_uint d) = false.
Proof. induction d; cbn; auto. Qed.

Lemma py_str_no_colon (v : value) :
  (forall s, v <> VStr s) -> contains ":" (py_str v) = false.
Proof.
  intros Hv. destruct v as [| [|] | z | s]; try reflexivity.
  - unfold py_str, str_of_Z, NilEmpty.string_of_int.
    destruct (Z.to_int z); cbn [contains];
      rewrite string_of_uint_no_colon; reflexivity.
  - exfalso. exact (Hv s eq_refl).
Qed.

(** ** The two rewriting steps of [convert_version_2] on a dictionary *)

Lemma renamed_eq (m : gmap string value) :
  renamed m =
  match m !! "auto_cycle" with
  | Some v =>
      delete "auto_cycle"
        (match m !! "auto_connect" with
         | Some _ => m
         | None => <["auto_connect" := v]> m
         end)
  | None => m
  end.
Proof.
  unfold renamed, rename_config_keys. cbn [fold_left rename_step].
  destruct (m !! "auto_cycle"); reflexivity.
Qed.

Lemma renamed_old (m : gmap string value) : renamed m !! "auto_cycle" = None.
Proof.
  rewrite renamed_eq. destruct (m !! "auto_cycle") eqn:E; [| exact E].
  apply lookup_delete_eq.
Qed.

Lemma renamed_new (m : gmap string value) :
  renamed m !! "auto_connect" =
  match m !! "auto_connect" with
  | Some v => Some v
  | None => m !! "auto_cycle"
  end.
Proof.
  rewrite renamed_eq. destruct (m !! "auto_cycle") eqn:E.
  - rewrite lookup_delete_ne by discriminate.
    destruct (m !! "auto_connect") eqn:E'; [exact E' |].
    apply lookup_insert_eq.
  - destruct (m !! "auto_connect"); reflexivity.
Qed.

Lemma renamed_other (m : gmap string value) (k : string) :
  k <> "auto_cycle" -> k <> "auto_connect" -> renamed m !! k = m !! k.
Proof.
  intros H1 H2. rewrite renamed_eq. destruct (m !! "auto_cycle"); [| reflexivity].
  rewrite lookup_delete_ne by congruence.
  destruct (m !! "auto_connect"); [reflexivity |].
  apply lookup_insert_ne. congruence.
Qed.

Lemma server_converted_other (m : gmap string value) (k : string) :
  k <> "server" -> server_converted m !! k = m !! k.
Proof.
  intros Hk. unfold server_converted.
  assert (delete "server" m !! k = m !! k) as Hd
    by (apply lookup_delete_ne; congruence).
  destruct (rsplit _ _ _) as [| h [| p [| q [| ? ?]]]]; try exact Hd.
  destruct (_ && _); [| exact Hd].
  apply lookup_insert_ne. congruence.
Qed.

Lemma server_converted_legacy (m : gmap string value) s host port protocol :
  m !! "server" = Some (VStr s) ->
  legacy_server s host port protocol ->
  server_converted m !! "server" = Some (VStr (host ++ ":" ++ port ++ ":s")).
Proof.
  intros Hm (-> & Hport & Hproto). unfold server_converted.
  rewrite (dict_get_Some _ _ _ _ Hm). cbn [py_str].
  rewrite rsplit_three.
  - rewrite Hport.
    assert (String.eqb protocol "s" || String.eqb protocol "t" = true) as ->
      by (destruct Hproto as [-> | ->]; reflexivity).
    apply lookup_insert_eq.
  - apply py_int_ok_no_colon, Hport.
  - destruct Hproto as [-> | ->]; reflexivity.
Qed.

Lemma server_converted_malformed (m : gmap string value) :
  (forall s host port protocol,
     m !! "server" = Some (VStr s) -> ~ legacy_server s host port protocol) ->
  server_converted m !! "server" = None.
Proof.
  intros Hbad. unfold server_converted.
  assert (delete "server" m !! "server" = None) as Hd
    by apply lookup_delete_eq.
  destruct (rsplit _ _ _) as [| h [| p [| q [| ? ?]]]] eqn:Hsplit;
    try exact Hd.
  destruct (_ && _) eqn:Hok; [| exact Hd].
  exfalso.
  apply andb_true_iff in Hok as [Hproto Hport].
  destruct (m !! "server") as [v |] eqn:Hm.
  - rewrite (dict_get_Some _ _ _ _ Hm) in Hsplit.
    destruct (rsplit_three_inv _ _ _ _ Hsplit) as (Hs & _ & _).
    destruct v as [| b | z | s].
    + discriminate Hsplit.
    + destruct b; discriminate Hsplit.
    + rewrite rsplit_no_colon in Hsplit by (apply py_str_no_colon; congruence).
      discriminate.
    + apply (Hbad s h p q eq_refl). repeat split; [exact Hs | exact Hport |].
      apply orb_true_iff in Hproto as [E | E]; apply String.eqb_eq in E; auto.
  - rewrite (dict_get_None _ _ _ Hm) in Hsplit. discriminate Hsplit.
Qed.

(** ** The version gate and the migration *)

Section Migration.
Context `{Imports}.

Lemma get_config_version_run st z :
  as_int (get st "config_version" (VInt 1)) = Some z ->
  get_config_version st = (Ok (get st "config_version" (VInt 1)), st).
Proof.
  intros Hz. unfold get_config_version. run_self. run_lift.
  unfold py_gt. rewrite Hz. reflexivity.
Qed.

Lemma get_config_version_bad st :
  as_int (get st "config_version" (VInt 1)) = None ->
  get_config_version st = (Raise TypeError, st).
Proof.
  intros Hz. unfold get_config_version. run_self. run_lift.
  unfold py_gt. rewrite Hz. reflexivity.
Qed.

Lemma requires_upgrade_run st z :
  as_int (get st "config_version" (VInt 1)) = Some z ->
  requires_upgrade st = (Ok (z <? FINAL_CONFIG_VERSION), st).
Proof.
  intros Hz. unfold requires_upgrade. rewrite run_bind.
  rewrite (get_config_version_run st z Hz). cbv beta iota.
  unfold lift, py_lt. rewrite Hz. reflexivity.
Qed.

Lemma requires_upgrade_bad st :
  as_int (get st "config_version" (VInt 1)) = None ->
  requires_upgrade st = (Raise TypeError, st).
Proof.
  intros Hz. unfold requires_upgrade. rewrite run_bind.
  rewrite (get_config_version_bad st Hz). reflexivity.
Qed.

Lemma requires_upgrade_pure st : exists r, requires_upgrade st = (r, st).
Proof.
  destruct (as_int (get st "config_version" (VInt 1))) as [z |] eqn:Hz.
  - rewrite (requires_upgrade_run st z Hz). eauto.
  - rewrite (requires_upgrade_bad st Hz). eauto.
Qed.

Lemma _is_upgrade_method_needed_run st min_version max_version z :
  as_int (get st "config_version" (VInt 1)) = Some z ->
  _is_upgrade_method_needed min_version max_version st =
  ((if z >? max_version then Ok false
    else if z <? min_version
         then Raise (Exception "config upgrade: unexpected version")
         else Ok true), st).
Proof.
  intros Hz. unfold _is_upgrade_method_needed. rewrite run_bind.
  rewrite (get_config_version_run st z Hz). cbv beta iota.
  run_lift. unfold py_gt. rewrite Hz.
  destruct (z >? max_version); [reflexivity |].
  run_lift. unfold py_lt. rewrite Hz.
  destruct (z <? min_version); reflexivity.
Qed.

Lemma _is_upgrade_method_needed_bad st min_version max_version :
  as_int (get st "config_version" (VInt 1)) = None ->
  _is_upgrade_method_needed min_version max_version st = (Raise TypeError, st).
Proof.
  intros Hz. unfold _is_upgrade_method_needed. rewrite run_bind.
  rewrite (get_config_version_bad st Hz). reflexivity.
Qed.

Lemma convert_server_quiet st :
  quiet st = true ->
  exists st', convert_server st = (Ok tt, st') /\ quiet st' = true /\
    cmdline_options st' = cmdline_options st /\
    user_config st' = server_converted (user_config st).
Proof.
  intros Hq.
  destruct (_set_key_in_user_config_quiet "server" VNone st Hq)
    as (sd & Hd & Hqd & Hcd & Hud).
  cbn [is_none negb] in Hud.
  unfold convert_server, try_except, server_converted. run_self.
  destruct (rsplit _ _ _) as [| h [| p [| q [| ? ?]]]];
    try (unfold raise at 1; exists sd; rewrite Hd; auto).
  destruct (String.eqb q "s" || String.eqb q "t"); cbn [negb andb];
    [| unfold raise at 1; exists sd; rewrite Hd; auto].
  destruct (py_int_ok p); cbn [negb];
    [| unfold raise at 1; exists sd; rewrite Hd; auto].
  destruct (_set_key_in_user_config_quiet "server"
              (VStr (h ++ ":" ++ p ++ ":s")) st Hq)
    as (ss & Hs & Hqs & Hcs & Hus).
  exists ss. rewrite Hs. auto.
Qed.

Lemma convert_server_frame st :
  exists r st', convert_server st = (r, st') /\
    cmdline_options st' = cmdline_options st /\ path st' = path st.
Proof.
  destruct (_set_key_in_user_config_frame "server" VNone true st)
    as (rd & sd & Hd & Hcd & _ & Hpd).
  unfold convert_server, try_except. run_self.
  destruct (rsplit _ _ _) as [| h [| p [| q [| ? ?]]]];
    try (unfold raise at 1; exists rd, sd; rewrite Hd; auto).
  destruct (negb _);
    [unfold raise at 1; exists rd, sd; rewrite Hd; auto |].
  destruct (negb _);
    [unfold raise at 1; exists rd, sd; rewrite Hd; auto |].
  destruct (_set_key_in_user_config_frame "server"
              (VStr (h ++ ":" ++ p ++ ":s")) true st)
    as (rs & ss & Hs & Hcs & _ & Hps).
  rewrite Hs. destruct rs as [[] | e].
  - exists (Ok tt), ss. auto.
  - destruct (_set_key_in_user_config_frame "server" VNone true ss)
      as (r2 & s2 & H2 & Hc2 & _ & Hp2).
    exists r2, s2. rewrite H2. repeat split; congruence.
Qed.

Lemma set_key_frame key v save st :
  exists r st', set_key key v save st = (r, st') /\
    cmdline_options st' = cmdline_options st /\ path st' = path st.
Proof.
  destruct (cmdline_options st !! key) eqn:Hc.
  - exists (Ok tt), st. rewrite set_key_fixed by (rewrite Hc; eauto). auto.
  - rewrite (set_key_modifiable _ _ _ _ Hc).
    destruct (_set_key_in_user_config_frame key v save st)
      as (r & st' & Hrun & Hc' & _ & Hp).
    exists r, st'. auto.
Qed.

Lemma convert_version_2_quiet st :
  quiet st = true ->
  cmdline_options st !! "config_version" = None ->
  as_int (get st "config_version" (VInt 1)) = Some 1 ->
  exists st', convert_version_2 st = (Ok tt, st') /\ quiet st' = true /\
    cmdline_options st' = cmdline_options st /\
    user_config st' =
      <["config_version" := VInt 2]>
        (server_converted (renamed (user_config st))).
Proof.
  intros Hq Hc Hv. unfold convert_version_2. rewrite run_bind.
  rewrite (_is_upgrade_method_needed_run st 1 1 1 Hv).
  cbv beta iota. cbn [Z.gtb Z.ltb Z.compare Pos.compare Pos.compare_cont negb].
  run_self. run_update. rewrite run_bind.
  destruct (convert_server_quiet
              (with_user_config
                 (snd (rename_config_keys (user_config st)
                         [("auto_cycle", "auto_connect")])) st) Hq)
    as (s1 & H1 & Hq1 & Hc1 & Hu1).
  rewrite H1. cbv beta iota.
  cbn [cmdline_options with_user_config] in Hc1.
  cbn [user_config with_user_config] in Hu1.
  rewrite set_key_modifiable by congruence.
  destruct (_set_key_in_user_config_quiet "config_version" (VInt 2) s1 Hq1)
    as (s2 & H2 & Hq2 & Hc2 & Hu2).
  exists s2. rewrite H2. cbn [is_none negb] in Hu2.
  rewrite Hu2, Hu1. repeat split; [exact Hq2 | congruence].
Qed.

Lemma convert_version_2_skip st z :
  as_int (get st "config_version" (VInt 1)) = Some z -> 1 < z ->
  convert_version_2 st = (Ok tt, st).
Proof.
  intros Hv Hz. unfold convert_version_2. rewrite run_bind.
  rewrite (_is_upgrade_method_needed_run st 1 1 z Hv).
  assert ((z >? 1) = true) as -> by lia. reflexivity.
Qed.

Lemma convert_version_2_gap st z :
  as_int (get st "config_version" (VInt 1)) = Some z -> z < 1 ->
  convert_version_2 st =
  (Raise (Exception "config upgrade: unexpected version"), st).
Proof.
  intros Hv Hz. unfold convert_version_2. rewrite run_bind.
  rewrite (_is_upgrade_method_needed_run st 1 1 z Hv).
  assert ((z >? 1) = false) as -> by lia.
  assert ((z <? 1) = true) as -> by lia. reflexivity.
Qed.

Lemma convert_version_2_frame st :
  exists r st', convert_version_2 st = (r, st') /\
    cmdline_options st' = cmdline_options st /\ path st' = path st.
Proof.
  unfold convert_version_2. rewrite run_bind.
  destruct (as_int (get st "config_version" (VInt 1))) as [z |] eqn:Hv.
  - rewrite (_is_upgrade_method_needed_run st 1 1 z Hv).
    destruct (z >? 1); [exists (Ok tt), st; auto |].
    destruct (z <? 1); [do 2 eexists; split; [reflexivity | auto] |].
    cbv beta iota. cbn [negb]. run_self. run_update. rewrite run_bind.
    match goal with |- context [convert_server ?s] =>
      destruct (convert_server_frame s) as (r1 & s1 & H1 & Hc1 & Hp1) end.
    cbn [cmdline_options path with_user_config] in Hc1, Hp1.
    rewrite H1. destruct r1 as [[] | e].
    + destruct (set_key_frame "config_version" (VInt 2) true s1)
        as (r2 & s2 & H2 & Hc2 & Hp2).
      exists r2, s2. rewrite H2. repeat split; congruence.
    + exists (Raise e), s1. auto.
  - rewrite (_is_upgrade_method_needed_bad st 1 1 Hv).
    do 2 eexists; split; [reflexivity | auto].
Qed.

Lemma upgrade_version st st' :
  cmdline_options st !! "config_version" = None ->
  upgrade st = (Ok tt, st') ->
  user_config st' !! "config_version" = Some (VInt FINAL_CONFIG_VERSION) /\
  cmdline_options st' = cmdline_options st /\ path st' = path st.
Proof.
  intros Hc. unfold upgrade. rewrite run_bind.
  destruct (convert_version_2_frame st) as (r1 & s1 & H1 & Hc1 & Hp1).
  rewrite H1. destruct r1 as [[] | e]; [| discriminate].
  rewrite set_key_modifiable by congruence.
  destruct (_set_key_in_user_config_frame "config_version"
              (VInt FINAL_CONFIG_VERSION) true s1)
    as (r2 & s2 & H2 & Hc2 & Hu2 & Hp2).
  rewrite H2. intros [= -> ->]. cbn [is_none negb] in Hu2.
  rewrite Hu2, lookup_insert_eq. repeat split; congruence.
Qed.

Lemma upgrade_gap st z :
  as_int (get st "config_version" (VInt 1)) = Some z -> z < 1 ->
  upgrade st = (Raise (Exception "config upgrade: unexpected version"), st).
Proof.
  intros Hv Hz. unfold upgrade. rewrite run_bind.
  rewrite (convert_version_2_gap st z Hv Hz). reflexivity.
Qed.

Lemma electrum_path_pure st : exists r, electrum_path st = (r, st).
Proof.
  unfold electrum_path, do_make_dir. run_self. rewrite run_bind.
  destruct (make_dir _); [| eexists; reflexivity].
  rewrite run_ret. cbv beta iota.
  destruct (py_truthy (get st "testnet" VNone)).
  { run_lift. destruct (path_join _ _) as [p' | e]; [| eexists; reflexivity].
    rewrite run_bind. destruct (make_dir p'); eexists; reflexivity. }
  destruct (py_truthy (get st "regtest" VNone)).
  { run_lift. destruct (path_join _ _) as [p' | e]; [| eexists; reflexivity].
    rewrite run_bind. destruct (make_dir p'); eexists; reflexivity. }
  eexists; reflexivity.
Qed.

End Migration.

(** ** The constructor *)

Section Construction.
Context `{Imports}.

Lemma settled_no_version options dir fs0 p u :
  cmdline_options (settled options dir fs0 p u) !! "config_version" = None.
Proof.
  cbn [settled cmdline_options].
  rewrite renamed_other by discriminate. apply lookup_delete_eq.
Qed.

Lemma settled_version options dir fs0 p u :
  get (settled options dir fs0 p u) "config_version" (VInt 1) =
  dict_get u "config_version" (VInt 1).
Proof. rewrite get_unset by apply settled_no_version. reflexivity. Qed.

Lemma init_run options reader dir fs0 p :
  electrum_path (new_object options dir fs0) =
    (Ok p, new_object options dir fs0) ->
  __init__ options reader dir fs0 =
  (requires_upgrade ≫= fun up : bool => if up then upgrade else mret tt)
    (settled options dir fs0 p (loaded_settings (reader p))).
Proof.
  intros Hp. unfold __init__. cbv zeta. rewrite run_bind, Hp. reflexivity.
Qed.

Lemma init_no_path options reader dir fs0 e :
  electrum_path (new_object options dir fs0) =
    (Raise e, new_object options dir fs0) ->
  __init__ options reader dir fs0 = (Raise e, new_object options dir fs0).
Proof.
  intros Hp. unfold __init__. cbv zeta. rewrite run_bind, Hp. reflexivity.
Qed.

Lemma loaded_settings_version o :
  ~ version_above o ->
  forall z, as_int (dict_get (loaded_settings o) "config_version" (VInt 1))
            = Some z ->
  (z <? FINAL_CONFIG_VERSION) = false ->
  loaded_settings o !! "config_version" = Some (VInt FINAL_CONFIG_VERSION).
Proof.
  intros Hno z Hz Hlt.
  assert (forall u, o = Some u -> u <> ∅ ->
            u !! "config_version" = Some (VInt FINAL_CONFIG_VERSION)) as Hu.
  { intros u -> Hne. cbn [loaded_settings] in Hz.
    rewrite bool_decide_eq_false_2 in Hz by exact Hne.
    unfold dict_get in Hz.
    destruct (u !! "config_version") as [v |] eqn:Hv.
    - assert (z <= FINAL_CONFIG_VERSION) as Hle.
      { destruct (Z_le_gt_dec z FINAL_CONFIG_VERSION) as [| Hgt]; [assumption |].
        exfalso. apply Hno. exists u, v, z. repeat split; auto. lia. }
      unfold FINAL_CONFIG_VERSION in *.
      destruct v as [| [|] | z' |]; cbn in Hz; try discriminate;
        injection Hz as <-; try (exfalso; lia).
      f_equal. f_equal. lia.
    - cbn in Hz. injection Hz as <-. discriminate Hlt. }
  destruct o as [u |]; cbn [loaded_settings].
  - destruct (bool_decide (u = ∅)) eqn:Hd.
    + apply lookup_singleton_eq.
    + apply bool_decide_eq_false in Hd. rewrite Hu; auto.
  - apply lookup_singleton_eq.
Qed.

Lemma loaded_settings_above o u v z :
  o = Some u -> u !! "config_version" = Some v -> as_int v = Some z ->
  loaded_settings o = u /\
  as_int (dict_get (loaded_settings o) "config_version" (VInt 1)) = Some z.
Proof.
  intros -> Hv Hz. cbn [loaded_settings].
  rewrite bool_decide_eq_false_2.
  - rewrite (dict_get_Some _ _ _ _ Hv). auto.
  - intros ->. rewrite lookup_empty in Hv. discriminate.
Qed.

End Construction.

(** ** Schema version after construction *)

(** C3 (as amended).  After a construction that completes, the version
    stored under [config_version] is [FINAL_CONFIG_VERSION] whenever the
    reader did not return settings with a version above it; settings with
    a higher version are kept exactly as loaded and nothing is written. *)
Theorem init_final_version `{Imports} (options : option (gmap string value))
    (reader : value -> option (gmap string value)) (dir : value)
    (fs0 : list write_outcome) (st : SimpleConfig) :
  __init__ options reader dir fs0 = (Ok tt, st) ->
  (~ version_above (reader (path st)) ->
     user_config st !! "config_version" = Some (VInt FINAL_CONFIG_VERSION)) /\
  (forall u v z,
     reader (path st) = Some u -> u !! "config_version" = Some v ->
     as_int v = Some z -> FINAL_CONFIG_VERSION < z ->
     user_config st = u /\ disk st = []).
Proof.
  intros Hinit.
  destruct (electrum_path_pure (new_object options dir fs0)) as [[p | e] Hp].
  2: { rewrite (init_no_path _ _ _ _ _ Hp) in Hinit. discriminate. }
  rewrite (init_run _ reader _ _ _ Hp), run_bind in Hinit.
  set (s0 := settled options dir fs0 p (loaded_settings (reader p))) in *.
  assert (cmdline_options s0 !! "config_version" = None) as Hc
    by apply settled_no_version.
  destruct (as_int (get s0 "config_version" (VInt 1))) as [z |] eqn:Hz.
  2: { rewrite (requires_upgrade_bad _ Hz) in Hinit. discriminate. }
  rewrite (requires_upgrade_run _ _ Hz) in Hinit. cbv beta iota in Hinit.
  unfold s0 in Hz. rewrite settled_version in Hz. fold s0 in Hz.
  destruct (z <? FINAL_CONFIG_VERSION) eqn:Hlt.
  - destruct (upgrade_version _ _ Hc Hinit) as (Hv & _ & Hpath).
    split; [intros _; exact Hv |].
    intros u v z' Hr Hu Hz' Habove. exfalso.
    rewrite Hpath in Hr. cbn [s0 settled path] in Hr.
    destruct (loaded_settings_above _ _ _ _ Hr Hu Hz') as [_ Hz''].
    rewrite Hz'' in Hz. injection Hz as ->. lia.
  - rewrite run_ret in Hinit. injection Hinit as <-.
    cbn [s0 settled path user_config disk]. split.
    + intros Hno. exact (loaded_settings_version _ Hno z Hz Hlt).
    + intros u v z' Hr Hu Hz' _.
      destruct (loaded_settings_above _ _ _ _ Hr Hu Hz') as [-> _]. auto.
Qed.

(** A construction that loads version-1 settings ends at version 2. *)
Lemma init_final_version_witness :
  user_config
    (snd (@__init__ posix None (fun _ => Some legacy_example)
            (VStr "/data") []))
    !! "config_version" = Some (VInt FINAL_CONFIG_VERSION).
Proof.
  apply (@init_final_version posix None (fun _ => Some legacy_example)
           (VStr "/data") []).
  - vm_compute. reflexivity.
  - intros (u & v & z & Hu & Hv & Hz & Hlt).
    injection Hu as <-. vm_compute in Hv. injection Hv as <-.
    vm_compute in Hz. injection Hz as <-. vm_compute in Hlt. discriminate.
Defined.

(** C3 as stated fails: settings loaded at version 3 are left at version 3
    by a construction that completes. *)
Lemma init_final_version_counterexample :
  exists st,
    @__init__ posix None (fun _ => Some {[ "config_version" := VInt 3 ]})
      (VStr "/data") [] = (Ok tt, st) /\
    user_config st !! "config_version" = Some (VInt 3) /\
    VInt 3 <> VInt FINAL_CONFIG_VERSION.
Proof.
  eexists. split; [vm_compute; reflexivity |].
  split; [vm_compute; reflexivity | discriminate].
Qed.

(** ** Applicability windows *)

(** C4. With the current version inside the object and a window
    [min_version..max_version]: above the window the gate answers "not
    needed" and the step changes nothing; below the window the gate raises,
    which makes the step, the upgrade and a constructor that has reached the
    upgrade check raise as well; the gate answers "needed" exactly inside
    the window. *)
Theorem upgrade_window `{Imports} (st : SimpleConfig)
    (min_version max_version cur : Z) :
  min_version <= max_version ->
  get st "config_version" (VInt 1) = VInt cur ->
  (max_version < cur ->
     _is_upgrade_method_needed min_version max_version st = (Ok false, st)) /\
  (cur < min_version ->
     exists msg,
       _is_upgrade_method_needed min_version max_version st =
       (Raise (Exception msg), st)) /\
  (_is_upgrade_method_needed min_version max_version st = (Ok true, st) <->
     min_version <= cur <= max_version) /\
  (1 < cur -> convert_version_2 st = (Ok tt, st)) /\
  (cur < 1 ->
     exists msg,
       convert_version_2 st = (Raise (Exception msg), st) /\
       upgrade st = (Raise (Exception msg), st) /\
       forall options reader dir fs0 p,
         electrum_path (new_object options dir fs0) =
           (Ok p, new_object options dir fs0) ->
         settled options dir fs0 p (loaded_settings (reader p)) = st ->
         __init__ options reader dir fs0 = (Raise (Exception msg), st)).
Proof.
  intros Hwin Hcur.
  assert (as_int (get st "config_version" (VInt 1)) = Some cur) as Hz
    by (rewrite Hcur; reflexivity).
  pose proof (_is_upgrade_method_needed_run st min_version max_version cur Hz)
    as Hgate.
  split; [| split; [| split; [| split]]].
  - intros Hgt. rewrite Hgate.
    assert ((cur >? max_version) = true) as -> by lia. reflexivity.
  - intros Hlt. eexists. rewrite Hgate.
    assert ((cur >? max_version) = false) as -> by lia.
    assert ((cur <? min_version) = true) as -> by lia. reflexivity.
  - rewrite Hgate. split.
    + intros Hrun. destruct (cur >? max_version) eqn:E1; [discriminate |].
      destruct (cur <? min_version) eqn:E2; [discriminate |]. lia.
    + intros [Hlo Hhi].
      assert ((cur >? max_version) = false) as -> by lia.
      assert ((cur <? min_version) = false) as -> by lia. reflexivity.
  - intros Hgt. exact (convert_version_2_skip st cur Hz Hgt).
  - intros Hlt. eexists. split; [exact (convert_version_2_gap st cur Hz Hlt) |].
    split; [exact (upgrade_gap st cur Hz Hlt) |].
    intros options reader dir fs0 p Hp Hst.
    rewrite (init_run _ reader _ _ _ Hp), Hst, run_bind.
    rewrite (requires_upgrade_run _ _ Hz).
    assert ((cur <? FINAL_CONFIG_VERSION) = true) as ->
      by (unfold FINAL_CONFIG_VERSION; lia).
    exact (upgrade_gap st cur Hz Hlt).
Qed.

(** At version 1 the window [1..1] of [convert_version_2] applies. *)
Lemma upgrade_window_witness :
  _is_upgrade_method_needed 1 1 (config_of ∅ legacy_example) =
  (Ok true, config_of ∅ legacy_example).
Proof.
  apply (@upgrade_window posix (config_of ∅ legacy_example) 1 1 1);
    [lia | vm_compute; reflexivity | lia].
Defined.

(** ** The migration to version 2 *)

Section MigrationVerdict.
Context `{Imports}.

Lemma save_user_config_verdict st :
  exists r st', save_user_config st = (r, st') /\
    cmdline_options st' = cmdline_options st /\
    user_config st' = user_config st /\
    (r = Ok tt <-> save_refused st = false).
Proof.
  unfold save_user_config, save_refused. run_self.
  destruct (path st) as [| b | z | s]; cbn [py_truthy negb].
  - do 2 eexists. split; [reflexivity |]. tauto.
  - destruct b; cbn [negb].
    + do 2 eexists. split; [reflexivity |].
      split; [reflexivity |]. split; [reflexivity |].
      split; discriminate.
    + do 2 eexists. split; [reflexivity |]. tauto.
  - destruct (z =? 0); cbn [negb].
    + do 2 eexists. split; [reflexivity |]. tauto.
    + do 2 eexists. split; [reflexivity |].
      split; [reflexivity |]. split; [reflexivity |].
      split; discriminate.
  - destruct (String.eqb s ""); cbn [negb].
    + do 2 eexists. split; [reflexivity |]. tauto.
    + run_lift. cbn [path_join].
      destruct (fs st) as [| [] rest]; do 2 eexists;
        (split; [reflexivity |]);
        (split; [reflexivity |]); (split; [reflexivity |]);
        cbn [write_raises]; split; (discriminate || reflexivity).
Qed.

Lemma _set_key_in_user_config_verdict key v st :
  exists r st', _set_key_in_user_config key v true st = (r, st') /\
    cmdline_options st' = cmdline_options st /\
    user_config st' =
      (if negb (is_none v) then <[key := v]> (user_config st)
       else delete key (user_config st)) /\
    (r = Ok tt <-> save_refused st = false).
Proof.
  unfold _set_key_in_user_config. run_self. run_update.
  match goal with |- context [save_user_config ?s] =>
    destruct (save_user_config_verdict s) as (r & st' & Hs & Hc & Hu & Hv)
  end.
  exists r, st'. rewrite Hs. auto.
Qed.

(** What a [convert_server] that returns has done to the settings. *)
Lemma convert_server_verdict st st' :
  convert_server st = (Ok tt, st') ->
  cmdline_options st' = cmdline_options st /\
  user_config st' =
    (if save_refused st then delete "server" (user_config st)
     else server_converted (user_config st)).
Proof.
  destruct (_set_key_in_user_config_verdict "server" VNone st)
    as (rd & sd & Hd & Hcd & Hud & Hvd).
  cbn [is_none negb] in Hud.
  assert (handler_case :
    _set_key_in_user_config "server" VNone true st = (Ok tt, st') ->
    cmdline_options st' = cmdline_options st /\
    user_config st' = delete "server" (user_config st) /\
    save_refused st = false).
  { rewrite Hd. intros [= -> ->].
    split; [exact Hcd |]. split; [exact Hud |]. apply Hvd. reflexivity. }
  unfold convert_server, try_except, server_converted. run_self.
  destruct (rsplit _ _ _) as [| h [| p [| q [| ? ?]]]];
    try (unfold raise at 1; intros Hrun;
         destruct (handler_case Hrun) as (Hc & Hu & ->); auto).
  destruct (String.eqb q "s" || String.eqb q "t"); cbn [negb andb];
    [| unfold raise at 1; intros Hrun;
       destruct (handler_case Hrun) as (Hc & Hu & ->); auto].
  destruct (py_int_ok p); cbn [negb];
    [| unfold raise at 1; intros Hrun;
       destruct (handler_case Hrun) as (Hc & Hu & ->); auto].
  destruct (_set_key_in_user_config_verdict "server"
              (VStr (h ++ ":" ++ p ++ ":s")) st)
    as (r1 & s1 & H1 & Hc1 & Hu1 & Hv1).
  cbn [is_none negb] in Hu1. rewrite H1.
  destruct r1 as [[] | e].
  - intros [= <-].
    assert (save_refused st = false) as -> by (apply Hv1; reflexivity).
    auto.
  - assert (save_refused st = true) as ->.
    { destruct (save_refused st); [reflexivity |].
      assert (Raise e = Ok tt) as Habs by (apply Hv1; reflexivity).
      discriminate Habs. }
    destruct (_set_key_in_user_config_frame "server" VNone true s1)
      as (r2 & s2 & H2 & Hc2 & Hu2 & _).
    cbn [is_none negb] in Hu2. rewrite H2. intros [= -> ->].
    split; [congruence |].
    rewrite Hu2, Hu1. apply delete_insert_eq.
Qed.

Lemma convert_version_2_verdict st st' :
  cmdline_options st !! "config_version" = None ->
  as_int (get st "config_version" (VInt 1)) = Some 1 ->
  convert_version_2 st = (Ok tt, st') ->
  cmdline_options st' = cmdline_options st /\
  user_config st' =
    <["config_version" := VInt 2]>
      (if save_refused st then delete "server" (renamed (user_config st))
       else server_converted (renamed (user_config st))).
Proof.
  intros Hc Hv. unfold convert_version_2. rewrite run_bind.
  rewrite (_is_upgrade_method_needed_run st 1 1 1 Hv).
  cbv beta iota. cbn [Z.gtb Z.ltb Z.compare Pos.compare Pos.compare_cont negb].
  run_self. run_update. rewrite run_bind.
  fold (renamed (user_config st)).
  destruct (convert_server (with_user_config (renamed (user_config st)) st))
    as [[[] | e] s1] eqn:H1; [| discriminate].
  destruct (convert_server_verdict _ _ H1) as [Hc1 Hu1].
  cbn [cmdline_options user_config with_user_config] in Hc1, Hu1.
  change (save_refused (with_user_config (renamed (user_config st)) st))
    with (save_refused st) in Hu1.
  rewrite set_key_modifiable by congruence.
  destruct (_set_key_in_user_config_frame "config_version" (VInt 2) true s1)
    as (r2 & s2 & H2 & Hc2 & Hu2 & _).
  cbn [is_none negb] in Hu2. rewrite H2. intros [= -> ->].
  split; [congruence |]. rewrite Hu2, Hu1. reflexivity.
Qed.

Lemma quiet_not_refused st : quiet st = true -> save_refused st = false.
Proof.
  unfold quiet, save_refused. intros [Hp Hfs]%andb_true_iff.
  destruct (path st) as [| b | z | s]; cbn in Hp |- *.
  - reflexivity.
  - apply negb_true_iff, Hp.
  - apply negb_true_iff in Hp. exact Hp.
  - destruct (String.eqb s ""); [reflexivity |].
    destruct (fs st) as [| o rest]; [reflexivity |].
    cbn in Hfs. apply andb_true_iff in Hfs as [Ho _].
    apply negb_true_iff, Ho.
Qed.

End MigrationVerdict.

(** C5 (as amended).  On an object at version 1 (stored as 1, or not
    stored) whose [config_version] is not on the command line,
    [convert_version_2] returns whenever the file system accepts the
    writes, and whenever it returns: [auto_cycle] is gone and
    [auto_connect] holds its value unless it had one already,
    [config_version] is 2, every other key but [server] is as before, a
    server of any other form than the legacy [host:port:protocol] is
    removed, and a server of the legacy form reads [host:port:s] provided
    the save of the rewritten value did not raise; if that save raised, the
    exception was swallowed and the server is removed as well.  The spec's
    example settings become the migrated example when that save is accepted,
    and the server [not-a-valid-server] is removed. *)
Theorem convert_version_2_migrates `{Imports} (st : SimpleConfig) :
  cmdline_options st !! "config_version" = None ->
  as_int (get st "config_version" (VInt 1)) = Some 1 ->
  (quiet st = true -> exists st', convert_version_2 st = (Ok tt, st')) /\
  (forall st',
     convert_version_2 st = (Ok tt, st') ->
     cmdline_options st' = cmdline_options st /\
     user_config st' !! "config_version" = Some (VInt 2) /\
     user_config st' !! "auto_cycle" = None /\
     user_config st' !! "auto_connect" =
       (match user_config st !! "auto_connect" with
        | Some v => Some v
        | None => user_config st !! "auto_cycle"
        end) /\
     (forall s host port protocol,
        user_config st !! "server" = Some (VStr s) ->
        legacy_server s host port protocol ->
        user_config st' !! "server" =
          (if save_refused st then None
           else Some (VStr (host ++ ":" ++ port ++ ":s")))) /\
     ((forall s host port protocol,
         user_config st !! "server" = Some (VStr s) ->
         ~ legacy_server s host port protocol) ->
      user_config st' !! "server" = None) /\
     (forall k,
        k <> "config_version" -> k <> "auto_cycle" -> k <> "auto_connect" ->
        k <> "server" -> user_config st' !! k = user_config st !! k) /\
     (user_config st = legacy_example -> save_refused st = false ->
      user_config st' = migrated_example) /\
     (user_config st !! "server" = Some (VStr "not-a-valid-server") ->
      user_config st' !! "server" = None)).
Proof.
  intros Hc Hz. split.
  { intros Hq.
    destruct (convert_version_2_quiet st Hq Hc Hz) as (st' & Hrun & _).
    exists st'. exact Hrun. }
  intros st' Hrun.
  destruct (convert_version_2_verdict st st' Hc Hz Hrun) as [Hc' Hu].
  assert (renamed (user_config st) !! "server" = user_config st !! "server")
    as Hserver by (apply renamed_other; discriminate).
  assert ((forall s host port protocol,
             user_config st !! "server" = Some (VStr s) ->
             ~ legacy_server s host port protocol) ->
          user_config st' !! "server" = None) as Hdrop.
  { intros Hbad. rewrite Hu, lookup_insert_ne by discriminate.
    destruct (save_refused st); [apply lookup_delete_eq |].
    apply server_converted_malformed. intros s h p q Hs.
    rewrite Hserver in Hs. exact (Hbad s h p q Hs). }
  assert (forall k, k <> "server" ->
            (if save_refused st
             then delete "server" (renamed (user_config st))
             else server_converted (renamed (user_config st))) !! k =
            renamed (user_config st) !! k) as Hother.
  { intros k Hk. destruct (save_refused st).
    - apply lookup_delete_ne. congruence.
    - apply server_converted_other, Hk. }
  split; [exact Hc' |].
  split; [rewrite Hu; apply lookup_insert_eq |].
  split.
  { rewrite Hu, lookup_insert_ne by discriminate.
    rewrite Hother by discriminate. apply renamed_old. }
  split.
  { rewrite Hu, lookup_insert_ne by discriminate.
    rewrite Hother by discriminate. apply renamed_new. }
  split.
  { intros s h p q Hs Hl. rewrite Hu, lookup_insert_ne by discriminate.
    destruct (save_refused st); [apply lookup_delete_eq |].
    apply (server_converted_legacy _ s h p q); [| exact Hl].
    rewrite Hserver. exact Hs. }
  split; [exact Hdrop |].
  split.
  { intros k H1 H2 H3 H4. rewrite Hu, lookup_insert_ne by congruence.
    rewrite Hother by exact H4. apply renamed_other; assumption. }
  split.
  { intros He Hsave. rewrite Hu, Hsave, He. vm_compute. reflexivity. }
  intros Hs. apply Hdrop. intros s h p q Hs' (Heq & _ & _).
  rewrite Hs in Hs'. injection Hs' as <-.
  apply (f_equal (contains ":")) in Heq.
  rewrite !contains_app in Heq. cbn in Heq.
  rewrite orb_true_r in Heq. discriminate Heq.
Qed.

(** The spec's example: version 1 with [auto_cycle] and a [t] server. *)
Lemma convert_version_2_migrates_witness :
  exists st',
    @convert_version_2 posix (config_of ∅ legacy_example) = (Ok tt, st') /\
    user_config st' = migrated_example.
Proof.
  destruct (@convert_version_2_migrates posix (config_of ∅ legacy_example))
    as [Hreturns Hafter].
  - vm_compute. reflexivity.
  - vm_compute. reflexivity.
  - destruct Hreturns as [st' Hrun]; [vm_compute; reflexivity |].
    exists st'. split; [exact Hrun |].
    destruct (Hafter st' Hrun) as (_ & _ & _ & _ & _ & _ & _ & Hex & _).
    apply Hex; reflexivity.
Defined.

(** C5 as stated fails: when the file system refuses the save of the
    rewritten server and accepts the later ones, [convert_version_2]
    returns with the well-formed server of the spec's example removed
    instead of rewritten. *)
Lemma convert_version_2_migrates_counterexample :
  user_config (with_fs [WriteError] (config_of ∅ legacy_example))
    !! "config_version" = Some (VInt 1) /\
  user_config (with_fs [WriteError] (config_of ∅ legacy_example))
    !! "server" = Some (VStr "host:50001:t") /\
  exists st',
    @convert_version_2 posix
      (with_fs [WriteError] (config_of ∅ legacy_example)) = (Ok tt, st') /\
    user_config st' !! "config_version" = Some (VInt 2) /\
    user_config st' !! "server" = None.
Proof.
  split; [vm_compute; reflexivity |].
  split; [vm_compute; reflexivity |].
  eexists. split; [vm_compute; reflexivity |].
  split; vm_compute; reflexivity.
Qed.

(** ** Construction does not migrate settings that are current *)

(** C6. Once the path is resolved: if the reader returns nothing or an
    empty dictionary, the constructor returns with the persisted settings
    exactly [{config_version: FINAL_CONFIG_VERSION}]; if it returns settings
    already at the final version, the constructor returns with exactly
    these.  In both cases [requires_upgrade] answers no, and the object is
    the one that reached the upgrade check: no write was attempted and
    nothing is on disk.  Constructing again from the settings of an object
    at the final version keeps these settings and writes nothing. *)
Theorem init_idempotent `{Imports} (options : option (gmap string value))
    (reader : value -> option (gmap string value)) (dir : value)
    (fs0 : list write_outcome) (p : value) :
  electrum_path (new_object options dir fs0) =
    (Ok p, new_object options dir fs0) ->
  (reader p = None \/ reader p = Some ∅ ->
     __init__ options reader dir fs0 =
     (Ok tt,
      settled options dir fs0 p
        {[ "config_version" := VInt FINAL_CONFIG_VERSION ]}) /\
     fst (requires_upgrade
            (settled options dir fs0 p
               {[ "config_version" := VInt FINAL_CONFIG_VERSION ]}))
     = Ok false) /\
  (forall u,
     reader p = Some u ->
     u !! "config_version" = Some (VInt FINAL_CONFIG_VERSION) ->
     __init__ options reader dir fs0 = (Ok tt, settled options dir fs0 p u) /\
     fst (requires_upgrade (settled options dir fs0 p u)) = Ok false) /\
  (forall st reader',
     __init__ options reader dir fs0 = (Ok tt, st) ->
     user_config st !! "config_version" = Some (VInt FINAL_CONFIG_VERSION) ->
     reader' p = Some (user_config st) ->
     exists st',
       __init__ options reader' dir fs0 = (Ok tt, st') /\
       user_config st' = user_config st /\
       cmdline_options st' = cmdline_options st /\
       disk st' = [] /\ fs st' = fs0).
Proof.
  intros Hp.
  assert (forall u,
            u !! "config_version" = Some (VInt FINAL_CONFIG_VERSION) ->
            requires_upgrade (settled options dir fs0 p u) =
            (Ok false, settled options dir fs0 p u)) as Hcheck.
  { intros u Hu. rewrite (requires_upgrade_run _ FINAL_CONFIG_VERSION).
    - reflexivity.
    - rewrite settled_version, (dict_get_Some _ _ _ _ Hu). reflexivity. }
  assert (forall rd u,
            loaded_settings (rd p) = u ->
            u !! "config_version" = Some (VInt FINAL_CONFIG_VERSION) ->
            __init__ options rd dir fs0 = (Ok tt, settled options dir fs0 p u))
    as Hcurrent.
  { intros rd u Hl Hu. rewrite (init_run _ rd _ _ _ Hp), Hl, run_bind.
    rewrite (Hcheck u Hu). reflexivity. }
  assert (forall rd u,
            rd p = Some u ->
            u !! "config_version" = Some (VInt FINAL_CONFIG_VERSION) ->
            loaded_settings (rd p) = u) as Hload.
  { intros rd u -> Hu. cbn [loaded_settings].
    rewrite bool_decide_eq_false_2; [reflexivity |].
    intros ->. rewrite lookup_empty in Hu. discriminate. }
  split; [| split].
  - intros Hr. split.
    + apply Hcurrent; [| apply lookup_singleton_eq].
      destruct Hr as [-> | ->]; reflexivity.
    + rewrite Hcheck by apply lookup_singleton_eq. reflexivity.
  - intros u Hr Hu. split.
    + apply Hcurrent; [| exact Hu]. exact (Hload _ _ Hr Hu).
    + rewrite (Hcheck u Hu). reflexivity.
  - intros st reader' Hfirst Hv Hr'.
    exists (settled options dir fs0 p (user_config st)).
    split; [apply Hcurrent; [exact (Hload _ _ Hr' Hv) | exact Hv] |].
    split; [reflexivity |]. split; [| split; reflexivity].
    rewrite (init_run _ reader _ _ _ Hp), run_bind in Hfirst.
    set (s0 := settled options dir fs0 p (loaded_settings (reader p))) in *.
    change (cmdline_options (settled options dir fs0 p (user_config st)))
      with (cmdline_options s0).
    destruct (requires_upgrade_pure s0) as [[[|] | e] Hreq];
      rewrite Hreq in Hfirst; cbv beta iota in Hfirst; [| | discriminate].
    + destruct (upgrade_version _ _ (settled_no_version _ _ _ _ _) Hfirst)
        as (_ & Hc & _).
      symmetry. exact Hc.
    + rewrite run_ret in Hfirst. injection Hfirst as <-. reflexivity.
Qed.

(** A first start: no options, no stored settings. *)
Lemma init_idempotent_witness :
  @__init__ posix None (fun _ => None) (VStr "/data") [] =
  (Ok tt,
   settled None (VStr "/data") [] (VStr "/data")
     {[ "config_version" := VInt FINAL_CONFIG_VERSION ]}).
Proof.
  refine (proj1 (proj1 (@init_idempotent posix None (fun _ => None)
                          (VStr "/data") [] (VStr "/data") _) _)).
  - vm_compute. reflexivity.
  - left. reflexivity.
Defined.

(** ** Fee estimation *)

Lemma Qltb_lt (a b : Q) : Qltb a b = true <-> (a < b)%Q.
Proof.
  unfold Qltb. rewrite negb_true_iff. split.
  - intros Hb. apply Qnot_le_lt. intros Hle.
    apply Qle_bool_iff in Hle. congruence.
  - intros Hlt. destruct (Qle_bool b a) eqn:E; [| reflexivity].
    apply Qle_bool_iff in E. exfalso. exact (Qlt_not_le _ _ Hlt E).
Qed.

Lemma Qltb_ge (a b : Q) : Qltb a b = false <-> (b <= a)%Q.
Proof.
  unfold Qltb. rewrite negb_false_iff. apply Qle_bool_iff.
Qed.

Lemma py_minQ_min (a b : Q) : (py_minQ a b == Qmin a b)%Q.
Proof.
  unfold py_minQ. destruct (Qltb b a) eqn:E.
  - apply Qltb_lt in E. symmetry. apply Q.min_r. apply Qlt_le_weak, E.
  - apply Qltb_ge in E. symmetry. apply Q.min_l. exact E.
Qed.

Lemma py_clamp_ten (x : Z) : py_max 10 (py_min 0 x) = 10.
Proof.
  unfold py_max, py_min. destruct (x <? 0) eqn:E.
  - assert ((x >? 10) = false) as -> by lia. reflexivity.
  - reflexivity.
Qed.

Section Fees.
Context `{Imports}.

Lemma dynfee_top st :
  dynfee st 4 =
  Ok (match fee_get (fee_estimates st) 2 with
      | Some f =>
          Some (py_minQ (inject_Z (5 * MAX_FEE_RATE)) (f + f / inject_Z 2)%Q)
      | None => None
      end).
Proof.
  unfold dynfee. cbn [Z.ltb Z.eqb Z.compare Pos.compare Pos.compare_cont negb].
  destruct (fee_get (fee_estimates st) 2); reflexivity.
Qed.

End Fees.

(** C8. Level 4 is one and a half times the 2-block sample, capped at five
    times the compiled fee ceiling, and absent when that sample is absent.
    With the sample map [{2: 1000}] the result is the smaller of 1500 and
    five times the ceiling, hence 1500 for a ceiling of at least 300. *)
Theorem dynfee_level_4 `{Imports} (st : SimpleConfig) :
  (forall s2, fee_get (fee_estimates st) 2 = Some s2 ->
     exists f, dynfee st 4 = Ok (Some f) /\
       (f == Qmin (inject_Z (5 * MAX_FEE_RATE)) ((3 # 2) * s2))%Q /\
       (f <= inject_Z 5 * inject_Z MAX_FEE_RATE)%Q) /\
  (fee_get (fee_estimates st) 2 = None -> dynfee st 4 = Ok None) /\
  (fee_estimates st = [(2, inject_Z 1000)] ->
     exists f, dynfee st 4 = Ok (Some f) /\
       (f == Qmin (inject_Z (5 * MAX_FEE_RATE)) (inject_Z 1500))%Q /\
       (300 <= MAX_FEE_RATE -> (f == inject_Z 1500)%Q)).
Proof.
  assert (forall s2, fee_get (fee_estimates st) 2 = Some s2 ->
     exists f, dynfee st 4 = Ok (Some f) /\
       (f == Qmin (inject_Z (5 * MAX_FEE_RATE)) ((3 # 2) * s2))%Q) as Hgen.
  { intros s2 Hs. eexists. rewrite dynfee_top, Hs. split; [reflexivity |].
    rewrite py_minQ_min.
    assert (s2 + s2 / inject_Z 2 == (3 # 2) * s2)%Q as -> by field.
    reflexivity. }
  split; [| split].
  - intros s2 Hs. destruct (Hgen s2 Hs) as (f & Hf & Heq).
    exists f. split; [exact Hf |]. split; [exact Heq |].
    rewrite Heq, <- inject_Z_mult. apply Q.le_min_l.
  - intros Hs. rewrite dynfee_top, Hs. reflexivity.
  - intros Hfe. destruct (Hgen (inject_Z 1000)) as (f & Hf & Heq).
    { rewrite Hfe. reflexivity. }
    assert ((3 # 2) * inject_Z 1000 == inject_Z 1500)%Q as Hv by reflexivity.
    rewrite Hv in Heq.
    exists f. split; [exact Hf |]. split; [exact Heq |].
    intros Hmax. rewrite Heq. apply Q.min_r.
    rewrite <- Zle_Qle. lia.
Qed.

(** C9 (what the code does).  A level above 4 fails the assertion and a
    level below -4 fails the list lookup, but the levels -4 to -1 index the
    target list from its end: [dynfee] returns what it returns for the
    level four higher. *)
Theorem dynfee_level_range `{Imports} (st : SimpleConfig) (i : Z) :
  (4 < i -> dynfee st i = Raise AssertionError) /\
  (i < -4 -> dynfee st i = Raise IndexError) /\
  (-4 <= i < 0 ->
     dynfee st i = dynfee st (i + 4) /\ exists r, dynfee st i = Ok r).
Proof.
  split; [| split].
  - intros Hi. unfold dynfee.
    assert ((i <? 4) = false) as -> by lia.
    assert ((i =? 4) = false) as -> by lia. reflexivity.
  - intros Hi. unfold dynfee, py_index.
    assert ((i <? 4) = true) as -> by lia.
    assert ((i <? 0) = true) as -> by lia.
    cbn [FEE_TARGETS length]. change (Z.of_nat 4) with 4.
    assert ((i + 4 <? 0) = true) as -> by lia. reflexivity.
  - intros Hi.
    assert (i = -4 \/ i = -3 \/ i = -2 \/ i = -1) as Hcases by lia.
    destruct Hcases as [-> | [-> | [-> | ->]]];
      (split; [reflexivity | eexists; reflexivity]).
Qed.

(** C10. Whenever [max_fee_rate()] is a number other than zero,
    [static_fee_index] returns 10 for every argument. *)
Theorem static_fee_index_constant `{Imports} (st : SimpleConfig) (v : Q)
    (m : Z) :
  as_int (max_fee_rate st) = Some m -> m <> 0 ->
  static_fee_index st v = Ok 10.
Proof.
  intros Hm Hnz. unfold static_fee_index, num_of. rewrite Hm.
  destruct (Qeq_bool (inject_Z m) 0) eqn:E.
  - apply Qeq_bool_iff in E. exfalso. apply Hnz.
    unfold Qeq in E. cbn in E. lia.
  - rewrite py_clamp_ten. reflexivity.
Qed.

(** With nothing configured the ceiling of the environment, 300000, is the
    scale, and a rate of 1000000 gives index 10. *)
Lemma static_fee_index_constant_witness :
  @static_fee_index posix flat_market (inject_Z 1000000) = Ok 10.
Proof.
  apply (@static_fee_index_constant posix flat_market (inject_Z 1000000)
           300000).
  - vm_compute. reflexivity.
  - lia.
Defined.

(** ** The inverse lookup *)

Lemma lookup_map {A B} (f : A -> B) (l : list A) (i : nat) :
  map f l !! i = option_map f (l !! i).
Proof.
  revert i. induction l as [| a l IH]; intros [| i]; cbn; auto.
Qed.

Lemma distances_known (rate : Q) (l : list (Z * Q)) :
  distances rate (map (fun x => (fst x, Some (snd x))) l) =
  Ok (map (fun x => (fst x, Qabs (snd x - rate))) l).
Proof.
  induction l as [| [t f] l IH]; [reflexivity |].
  cbn [map distances fst snd]. rewrite IH. reflexivity.
Qed.

(** [min_by_snd] returns the first of the smallest: [pre] is what has been
    scanned, with [best] at position [i] in it. *)
Lemma min_by_snd_first (l : list (Z * Q)) :
  forall (best : Z * Q) (pre : list (Z * Q)) (i : nat),
    pre !! i = Some best ->
    (forall j x, pre !! j = Some x ->
       (snd best <= snd x)%Q /\ ((j < i)%nat -> (snd best < snd x)%Q)) ->
    exists i',
      (pre ++ l)%list !! i' = Some (min_by_snd best l) /\
      forall j x, (pre ++ l)%list !! j = Some x ->
        (snd (min_by_snd best l) <= snd x)%Q /\
        ((j < i')%nat -> (snd (min_by_snd best l) < snd x)%Q).
Proof.
  induction l as [| x l IH]; intros best pre i Hi Hinv.
  - exists i. rewrite app_nil_r. auto.
  - cbn [min_by_snd].
    replace (pre ++ x :: l)%list with ((pre ++ [x]) ++ l)%list
      by (rewrite <- app_assoc; reflexivity).
    pose proof (lookup_lt_Some _ _ _ Hi) as Hlen.
    destruct (Qltb (snd x) (snd best)) eqn:E.
    + apply Qltb_lt in E. apply (IH x (pre ++ [x])%list (length pre)).
      * apply list_lookup_middle. reflexivity.
      * intros j y [[Hj Hy] | [-> <-]]%lookup_snoc_Some.
        -- destruct (Hinv j y Hy) as [Hle _].
           pose proof (Qlt_le_trans _ _ _ E Hle) as Hlt.
           split; [apply Qlt_le_weak, Hlt | intros _; exact Hlt].
        -- split; [apply Qle_refl | intros Hjj; exfalso; lia].
    + apply Qltb_ge in E. apply (IH best (pre ++ [x])%list i).
      * apply lookup_app_l_Some, Hi.
      * intros j y [[Hj Hy] | [-> <-]]%lookup_snoc_Some.
        -- exact (Hinv j y Hy).
        -- split; [exact E | intros Hjj; exfalso; lia].
Qed.

Section InverseLookup.
Context `{Imports}.

Lemma is_dynfee_truthy st :
  has_fee_estimates st = true ->
  py_truthy (is_dynfee st) = py_truthy (get st "dynamic_fees" (VBool false)).
Proof.
  intros Hfe. unfold is_dynfee. rewrite Hfe.
  destruct (py_truthy (get st "dynamic_fees" (VBool false))) eqn:E;
    [reflexivity | exact E].
Qed.

Lemma complete_samples_inv st :
  complete_samples st = true ->
  has_fee_estimates st = true /\
  exists s2, fee_get (fee_estimates st) 2 = Some s2.
Proof.
  unfold complete_samples, has_fee_estimates.
  intros [Hlen Hall]%andb_true_iff. split; [exact Hlen |].
  cbn [forallb FEE_TARGETS] in Hall.
  repeat (apply andb_true_iff in Hall as [? Hall]).
  match goal with
  | Hb : bool_decide (is_Some (fee_get _ 2)) = true |- _ =>
      apply bool_decide_eq_true in Hb; destruct Hb as [s2 Hs2]
  end.
  exists s2. exact Hs2.
Qed.

Lemma nearest_target_run st (rate s25 : Q) :
  complete_samples st = true ->
  fee_get (fee_estimates st) 25 = Some s25 ->
  exists top t,
    dynfee st 4 = Ok (Some top) /\
    nearest rate (candidates st top) t /\
    nearest_target st rate =
      Ok (if Qltb rate (s25 / inject_Z 2)%Q then -1 else t).
Proof.
  intros Hc H25. destruct (complete_samples_inv st Hc) as [_ [s2 Hs2]].
  pose proof (dynfee_top st) as Htop. rewrite Hs2 in Htop.
  set (top := py_minQ _ _) in Htop.
  unfold nearest_target. rewrite Htop. cbv zeta.
  change [(1, Some top)] with
    (map (fun x : Z * Q => (fst x, Some (snd x))) [(1, top)]).
  rewrite <- map_app, distances_known. fold (candidates st top).
  set (dist := fun x : Z * Q => (fst x, Qabs (snd x - rate))).
  destruct (candidates st top) as [| c cs] eqn:Hcs.
  { unfold candidates in Hcs. destruct (fee_estimates st); discriminate. }
  cbn [map]. rewrite H25.
  destruct (min_by_snd_first (map dist cs) (dist c) [dist c] 0)
    as (i & Hi & Hmin).
  { reflexivity. }
  { intros j x Hx. apply list_lookup_singleton_Some in Hx as [-> <-].
    split; [apply Qle_refl | intros Hj; exfalso; lia]. }
  change ([dist c] ++ map dist cs)%list with (map dist (c :: cs)) in Hi, Hmin.
  rewrite lookup_map in Hi.
  destruct ((c :: cs) !! i) as [[t f] |] eqn:Hcand; [| discriminate].
  cbn [option_map] in Hi. injection Hi as Hbest.
  exists top, t. rewrite Hcs. split; [reflexivity |]. split.
  - exists i, f. split; [exact Hcand |]. split.
    + intros j t' f' Hj.
      destruct (Hmin j (dist (t', f'))) as [Hle _].
      { rewrite lookup_map, Hj. reflexivity. }
      rewrite <- Hbest in Hle. exact Hle.
    + intros j t' f' Hlt Hj.
      destruct (Hmin j (dist (t', f'))) as [_ Hlt'].
      { rewrite lookup_map, Hj. reflexivity. }
      rewrite <- Hbest in Hlt'. exact (Hlt' Hlt).
  - rewrite <- Hbest. destruct (Qltb rate (s25 / inject_Z 2)); reflexivity.
Qed.

End InverseLookup.

(** C7. With all four samples in the map: when dynamic fees are switched
    on, the 25-block and 5-block samples are equal as numbers and the rate
    is at least the 5-block sample, [reverse_dynfee] returns 5; in every
    other case it returns -1 if the rate is below half the 25-block sample,
    and otherwise the target of the candidate nearest to the rate, the first
    one among equally near ones, the candidates being the samples followed
    by the pair of target 1 and [dynfee(4)].  With both samples equal to 500
    and dynamic fees on, the rate 600 gives 5. *)
Theorem reverse_dynfee_spec `{Imports} (st : SimpleConfig) (rate s25 s5 : Q) :
  complete_samples st = true ->
  fee_get (fee_estimates st) 25 = Some s25 ->
  fee_get (fee_estimates st) 5 = Some s5 ->
  (dynamic_fees_enabled st -> (s25 == s5)%Q -> (s5 <= rate)%Q ->
     reverse_dynfee st rate = Ok 5) /\
  (~ (dynamic_fees_enabled st /\ (s25 == s5)%Q /\ (s5 <= rate)%Q) ->
     exists top t,
       dynfee st 4 = Ok (Some top) /\
       nearest rate (candidates st top) t /\
       ((rate < s25 / inject_Z 2)%Q -> reverse_dynfee st rate = Ok (-1)) /\
       (~ (rate < s25 / inject_Z 2)%Q -> reverse_dynfee st rate = Ok t)) /\
  (dynamic_fees_enabled st ->
     (s25 == inject_Z 500)%Q -> (s5 == inject_Z 500)%Q ->
     rate = inject_Z 600 -> reverse_dynfee st rate = Ok 5).
Proof.
  intros Hc H25 H5.
  destruct (complete_samples_inv st Hc) as [Hfe _].
  assert (dynamic_fees_enabled st -> (s25 == s5)%Q -> (s5 <= rate)%Q ->
          reverse_dynfee st rate = Ok 5) as Hshort.
  { intros Hon Heq Hle. unfold reverse_dynfee. cbv zeta.
    rewrite (is_dynfee_truthy st Hfe), Hon, H25, H5. cbn [opt_num_eq andb].
    apply Qeq_bool_iff in Heq. apply Qle_bool_iff in Hle.
    rewrite Heq, Hle. reflexivity. }
  split; [exact Hshort |]. split.
  - intros Hnot.
    destruct (nearest_target_run st rate s25 Hc H25)
      as (top & t & Htop & Hnear & Hrun).
    assert (reverse_dynfee st rate = nearest_target st rate) as Hrev.
    { unfold reverse_dynfee. cbv zeta.
      rewrite (is_dynfee_truthy st Hfe), H25, H5. cbn [opt_num_eq].
      destruct (py_truthy (get st "dynamic_fees" (VBool false))) eqn:Hon;
        [| reflexivity].
      destruct (Qeq_bool s25 s5) eqn:Heq; [| reflexivity].
      destruct (Qle_bool s5 rate) eqn:Hle; [| reflexivity].
      exfalso. apply Hnot. split; [exact Hon |].
      split; [apply Qeq_bool_iff, Heq | apply Qle_bool_iff, Hle]. }
    exists top, t. split; [exact Htop |]. split; [exact Hnear |].
    rewrite Hrev, Hrun. split.
    + intros Hlt. apply Qltb_lt in Hlt. rewrite Hlt. reflexivity.
    + intros Hge. destruct (Qltb rate (s25 / inject_Z 2)) eqn:E;
        [| reflexivity].
      exfalso. apply Hge, Qltb_lt, E.
  - intros Hon E25 E5 ->. apply Hshort; [exact Hon | |].
    + rewrite E25, E5. reflexivity.
    + rewrite E5. rewrite <- Zle_Qle. lia.
Qed.

(** The flat market of the spec: both samples at 500, rate 600. *)
Lemma reverse_dynfee_spec_witness :
  @reverse_dynfee posix flat_market (inject_Z 600) = Ok 5.
Proof.
  refine (proj2 (proj2 (@reverse_dynfee_spec posix flat_market (inject_Z 600)
                          (inject_Z 500) (inject_Z 500) _ _ _)) _ _ _ _).
  - vm_compute. reflexivity.
  - vm_compute. reflexivity.
  - vm_compute. reflexivity.
  - vm_compute. reflexivity.
  - reflexivity.
  - reflexivity.
  - reflexivity.
Defined.

(** * Further properties of the code *)

(** ** Renaming keys *)

(** X1. One pair of [rename_config_keys]: the flag says whether the old key
    was present; afterwards the old key is absent (so a pair that renames a
    key to itself deletes it), the new key keeps the value it had and
    otherwise takes the old key's value, and no other key changes. *)
Theorem rename_config_keys_pair (config : gmap string value)
    (old_key new_key : string) :
  (fst (rename_config_keys config [(old_key, new_key)]) = true <->
     is_Some (config !! old_key)) /\
  snd (rename_config_keys config [(old_key, new_key)]) !! old_key = None /\
  (old_key <> new_key ->
     snd (rename_config_keys config [(old_key, new_key)]) !! new_key =
     match config !! new_key with
     | Some v => Some v
     | None => config !! old_key
     end) /\
  (forall k, k <> old_key -> k <> new_key ->
     snd (rename_config_keys config [(old_key, new_key)]) !! k = config !! k).
Proof.
  unfold rename_config_keys. cbn [fold_left rename_step].
  destruct (config !! old_key) as [v |] eqn:Hold; cbn [fst snd].
  - split; [split; eauto |].
    split; [apply lookup_delete_eq |]. split.
    + intros Hne. rewrite lookup_delete_ne by congruence.
      destruct (config !! new_key) eqn:Hnew; [exact Hnew |].
      apply lookup_insert_eq.
    + intros k H1 H2. rewrite lookup_delete_ne by congruence.
      destruct (config !! new_key); [reflexivity |].
      apply lookup_insert_ne. congruence.
  - split; [split; [discriminate | intros [? ?]; discriminate] |].
    split; [exact Hold |]. split.
    + intros _. destruct (config !! new_key); reflexivity.
    + reflexivity.
Qed.

(** X2. Renaming one pair a second time changes nothing and reports no
    update. *)
Theorem rename_config_keys_idempotent (config : gmap string value)
    (old_key new_key : string) :
  rename_config_keys
    (snd (rename_config_keys config [(old_key, new_key)]))
    [(old_key, new_key)] =
  (false, snd (rename_config_keys config [(old_key, new_key)])).
Proof.
  assert (forall m : gmap string value,
            m !! old_key = None ->
            rename_config_keys m [(old_key, new_key)] = (false, m)) as Hnone.
  { intros m Hm. unfold rename_config_keys. cbn [fold_left rename_step].
    rewrite Hm. reflexivity. }
  apply Hnone.
  unfold rename_config_keys. cbn [fold_left rename_step].
  destruct (config !! old_key) eqn:Hold; cbn [snd];
    [apply lookup_delete_eq | exact Hold].
Qed.

(** ** The command line after construction *)

(** X3. After a construction that completes, the command-line options hold
    neither [config_version] nor [auto_cycle]; [auto_connect] is the option
    of that name if given, else the [auto_cycle] option; every other option
    is as passed.  So [config_version] can always be written. *)
Theorem init_cmdline_options `{Imports}
    (options : option (gmap string value))
    (reader : value -> option (gmap string value)) (dir : value)
    (fs0 : list write_outcome) (st : SimpleConfig) :
  __init__ options reader dir fs0 = (Ok tt, st) ->
  cmdline_options st !! "config_version" = None /\
  is_modifiable st "config_version" = true /\
  cmdline_options st !! "auto_cycle" = None /\
  cmdline_options st !! "auto_connect" =
    (match default ∅ options !! "auto_connect" with
     | Some v => Some v
     | None => default ∅ options !! "auto_cycle"
     end) /\
  (forall k, k <> "config_version" -> k <> "auto_cycle" ->
     k <> "auto_connect" ->
     cmdline_options st !! k = default ∅ options !! k).
Proof.
  intros Hinit.
  destruct (electrum_path_pure (new_object options dir fs0)) as [[p | e] Hp].
  2: { rewrite (init_no_path _ _ _ _ _ Hp) in Hinit. discriminate. }
  rewrite (init_run _ reader _ _ _ Hp), run_bind in Hinit.
  set (s0 := settled options dir fs0 p (loaded_settings (reader p))) in *.
  assert (cmdline_options st = cmdline_options s0) as Hc.
  { destruct (requires_upgrade_pure s0) as [[[|] | e] Hreq];
      rewrite Hreq in Hinit; cbv beta iota in Hinit; [| | discriminate].
    - destruct (upgrade_version _ _ (settled_no_version _ _ _ _ _) Hinit)
        as (_ & Hc & _). exact Hc.
    - rewrite run_ret in Hinit. injection Hinit as <-. reflexivity. }
  assert (cmdline_options st !! "config_version" = None) as Hv
    by (rewrite Hc; apply settled_no_version).
  split; [exact Hv |].
  split; [apply is_modifiable_true, Hv |].
  rewrite Hc. cbn [s0 settled cmdline_options].
  change (match options with Some o => o | None => ∅ end)
    with (default ∅ options).
  split; [apply renamed_old |]. split.
  - rewrite renamed_new, !lookup_delete_ne by discriminate. reflexivity.
  - intros k H1 H2 H3.
    rewrite renamed_other, lookup_delete_ne by congruence. reflexivity.
Qed.

(** Options with the deprecated key on the command line. *)
Lemma init_cmdline_options_witness :
  cmdline_options
    (snd (@__init__ posix (Some {[ "auto_cycle" := VBool true ]})
            (fun _ => None) (VStr "/data") []))
    !! "auto_cycle" = None.
Proof.
  refine (proj1 (proj2 (proj2
    (@init_cmdline_options posix (Some {[ "auto_cycle" := VBool true ]})
       (fun _ => None) (VStr "/data") [] _ _)))).
  vm_compute. reflexivity.
Defined.

(** X4. Settings whose [config_version] is not a number (a string, or
    [None]) make the constructor raise [TypeError] at the upgrade check,
    with the settings loaded and nothing written. *)
Theorem init_version_type_error `{Imports}
    (options : option (gmap string value))
    (reader : value -> option (gmap string value)) (dir : value)
    (fs0 : list write_outcome) (p : value) (u : gmap string value)
    (v : value) :
  electrum_path (new_object options dir fs0) =
    (Ok p, new_object options dir fs0) ->
  reader p = Some u ->
  u !! "config_version" = Some v ->
  as_int v = None ->
  __init__ options reader dir fs0 =
  (Raise TypeError, settled options dir fs0 p u).
Proof.
  intros Hp Hr Hu Hv.
  assert (loaded_settings (reader p) = u) as Hl.
  { rewrite Hr. cbn [loaded_settings].
    rewrite bool_decide_eq_false_2; [reflexivity |].
    intros ->. rewrite lookup_empty in Hu. discriminate. }
  rewrite (init_run _ reader _ _ _ Hp), Hl, run_bind.
  rewrite requires_upgrade_bad; [reflexivity |].
  rewrite settled_version, (dict_get_Some _ _ _ _ Hu). exact Hv.
Qed.

(** A config file that stores the version as the string [2]. *)
Lemma init_version_type_error_witness :
  fst (@__init__ posix None
         (fun _ => Some {[ "config_version" := VStr "2" ]})
         (VStr "/data") []) = Raise TypeError.
Proof.
  rewrite (@init_version_type_error posix None
             (fun _ => Some {[ "config_version" := VStr "2" ]})
             (VStr "/data") [] (VStr "/data")
             {[ "config_version" := VStr "2" ]} (VStr "2")).
  - reflexivity.
  - vm_compute. reflexivity.
  - reflexivity.
  - vm_compute. reflexivity.
  - reflexivity.
Defined.

(** ** Resolving the data directory *)

(** X5. [electrum_path] starts from the explicit option, else from the
    user's directory.  It raises when that directory cannot be made.
    Otherwise [testnet] wins over [regtest]: the result is the base joined
    with [testnet] when that flag is true, with [regtest] when only that
    flag is true (raising when the sub-directory cannot be made, or with
    [TypeError] when the base is not a string), and the base itself when
    neither flag is true.  The object is never changed. *)
Theorem electrum_path_resolution `{Imports} (st : SimpleConfig) :
  (make_dir (base_path st) = false ->
     exists e, electrum_path st = (Raise e, st)) /\
  (make_dir (base_path st) = true ->
     (forall s,
        py_truthy (get st "testnet" VNone) = true ->
        base_path st = VStr s ->
        electrum_path st =
        ((if make_dir (VStr (os_path_join s "testnet"))
          then Ok (VStr (os_path_join s "testnet"))
          else Raise (Exception "make_dir")), st)) /\
     (forall s,
        py_truthy (get st "testnet" VNone) = false ->
        py_truthy (get st "regtest" VNone) = true ->
        base_path st = VStr s ->
        electrum_path st =
        ((if make_dir (VStr (os_path_join s "regtest"))
          then Ok (VStr (os_path_join s "regtest"))
          else Raise (Exception "make_dir")), st)) /\
     (py_truthy (get st "testnet" VNone) = true \/
      py_truthy (get st "regtest" VNone) = true ->
      (forall s, base_path st <> VStr s) ->
      electrum_path st = (Raise TypeError, st)) /\
     (py_truthy (get st "testnet" VNone) = false ->
      py_truthy (get st "regtest" VNone) = false ->
      electrum_path st = (Ok (base_path st), st))).
Proof.
  assert (forall v net,
            (forall s, v <> VStr s) -> path_join v net = Raise TypeError)
    as Hbad.
  { intros v net Hn. destruct v; try reflexivity.
    exfalso. exact (Hn _ eq_refl). }
  assert (electrum_path st =
          (let p := base_path st in
           do_make_dir p;;
           if py_truthy (get st "testnet" VNone) then
             p' ← lift (path_join p "testnet"); do_make_dir p';; mret p'
           else if py_truthy (get st "regtest" VNone) then
             p' ← lift (path_join p "regtest"); do_make_dir p';; mret p'
           else mret p) st) as -> by reflexivity.
  generalize (base_path st) as b. intros b. cbv zeta.
  unfold do_make_dir. rewrite run_bind. split.
  - intros ->. eexists. reflexivity.
  - intros ->. rewrite run_ret. cbv beta iota. repeat split.
    + intros s -> ->. run_lift. cbn [path_join].
      rewrite run_bind. destruct (make_dir _); reflexivity.
    + intros s -> -> ->. run_lift. cbn [path_join].
      rewrite run_bind. destruct (make_dir _); reflexivity.
    + intros Hnet Hn.
      destruct (py_truthy (get st "testnet" VNone)).
      * run_lift. rewrite (Hbad _ _ Hn). reflexivity.
      * destruct Hnet as [Hnet | ->]; [discriminate |].
        run_lift. rewrite (Hbad _ _ Hn). reflexivity.
    + intros -> ->. reflexivity.
Qed.

(** ** Saving after a change *)

Section Saving.
Context `{Imports}.

Lemma accepting_path st :
  accepting st = true ->
  exists s, path st = VStr s /\ py_truthy (path st) = true.
Proof.
  unfold accepting. intros [Hp _]%andb_true_iff.
  destruct (path st) as [| | | s]; try discriminate. eauto.
Qed.

(** One save with a known outcome for the attempt. *)
Lemma save_user_config_outcome st s :
  path st = VStr s -> s <> "" ->
  save_user_config st =
  match fs st with
  | [] => (Ok tt, with_disk (disk st ++ [user_config st]) st)
  | WriteOk :: rest =>
      (Ok tt, with_disk (disk st ++ [user_config st]) (with_fs rest st))
  | WriteDirGone :: rest => (Ok tt, with_fs rest st)
  | WriteNotFound :: rest => (Raise FileNotFoundError, with_fs rest st)
  | WriteError :: rest => (Raise OSError, with_fs rest st)
  end.
Proof.
  intros Hp Hs. unfold save_user_config. run_self. rewrite Hp.
  cbn [py_truthy]. apply String.eqb_neq in Hs. rewrite Hs. cbn [negb].
  run_lift. cbn [path_join].
  destruct (fs st) as [| [] rest]; reflexivity.
Qed.

Lemma save_user_config_accepting st :
  accepting st = true ->
  exists st', save_user_config st = (Ok tt, st') /\
    accepting st' = true /\
    disk st' = (disk st ++ [user_config st])%list /\
    cmdline_options st' = cmdline_options st /\
    user_config st' = user_config st.
Proof.
  intros Ha. pose proof Ha as Ha'. unfold accepting in Ha'.
  apply andb_true_iff in Ha' as [Hp Hfs].
  destruct (path st) as [| | | s] eqn:Hpath; try discriminate.
  apply negb_true_iff, String.eqb_neq in Hp.
  rewrite (save_user_config_outcome st s Hpath Hp).
  destruct (fs st) as [| o rest] eqn:Hf.
  - eexists. split; [reflexivity |]. unfold accepting. cbn.
    rewrite Hpath, Hf. apply String.eqb_neq in Hp. rewrite Hp. auto.
  - cbn [forallb] in Hfs. apply andb_true_iff in Hfs as [Ho Hrest].
    destruct o; try discriminate.
    eexists. split; [reflexivity |]. unfold accepting. cbn.
    rewrite Hpath, Hrest. apply String.eqb_neq in Hp. rewrite Hp. auto.
Qed.

Lemma _set_key_in_user_config_accepting key v st :
  accepting st = true ->
  exists st', _set_key_in_user_config key v true st = (Ok tt, st') /\
    accepting st' = true /\
    disk st' = (disk st ++ [user_config st'])%list /\
    cmdline_options st' = cmdline_options st /\
    user_config st' =
      (if negb (is_none v) then <[key := v]> (user_config st)
       else delete key (user_config st)).
Proof.
  intros Ha. unfold _set_key_in_user_config. run_self. run_update.
  match goal with |- context [save_user_config ?s] =>
    destruct (save_user_config_accepting s) as (st' & Hs & Ha' & Hd & Hc & Hu)
  end.
  { exact Ha. }
  exists st'. rewrite Hs. rewrite Hu. auto.
Qed.

Lemma _set_key_in_user_config_saved key v st :
  _set_key_in_user_config key v true st =
  save_user_config
    (with_user_config
       (if negb (is_none v) then <[key := v]> (user_config st)
        else delete key (user_config st)) st).
Proof. reflexivity. Qed.

End Saving.

(** X6. [set_key] with [save] on a key that is not on the command line,
    when the object has a path: if the write succeeds, the file holds
    exactly the settings as changed; if the data directory has vanished,
    the call still returns, with the settings changed in memory and
    nothing written.  With [save] off nothing is written and no write is
    attempted. *)
Theorem set_key_saves `{Imports} (st : SimpleConfig) (key : string)
    (v : value) (s : string) :
  cmdline_options st !! key = None ->
  path st = VStr s -> s <> "" ->
  let changed :=
    if negb (is_none v) then <[key := v]> (user_config st)
    else delete key (user_config st) in
  (fs st = [] \/ (exists rest, fs st = WriteOk :: rest) ->
     exists st', set_key key v true st = (Ok tt, st') /\
       user_config st' = changed /\
       disk st' = (disk st ++ [changed])%list) /\
  ((exists rest, fs st = WriteDirGone :: rest) ->
     exists st', set_key key v true st = (Ok tt, st') /\
       user_config st' = changed /\ disk st' = disk st) /\
  (exists st', set_key key v false st = (Ok tt, st') /\
     user_config st' = changed /\ disk st' = disk st /\ fs st' = fs st).
Proof.
  intros Hc Hp Hs changed.
  rewrite !(set_key_modifiable _ _ _ _ Hc).
  rewrite _set_key_in_user_config_unsaved, _set_key_in_user_config_saved.
  fold changed.
  rewrite (save_user_config_outcome (with_user_config changed st) s)
    by assumption.
  cbn [fs disk user_config with_user_config].
  destruct (fs st) as [| o rest] eqn:Hfs.
  - split; [| split].
    + intros _. eexists. split; [reflexivity | auto].
    + intros [rest Hrest]. discriminate Hrest.
    + eexists. split; [reflexivity | cbn; auto].
  - split; [| split].
    + intros [Hnil | [rest' Hrest]]; [discriminate Hnil |].
      injection Hrest as -> ->. eexists. split; [reflexivity | auto].
    + intros [rest' Hrest]. injection Hrest as -> ->.
      eexists. split; [reflexivity | auto].
    + eexists. split; [reflexivity | cbn; auto].
Qed.

(** Writing a server name into an empty configuration. *)
Lemma set_key_saves_witness :
  exists st',
    @set_key posix "server" (VStr "host:1:s") true (config_of ∅ ∅) =
      (Ok tt, st') /\
    disk st' = [ {[ "server" := VStr "host:1:s" ]} ].
Proof.
  destruct (@set_key_saves posix (config_of ∅ ∅) "server" (VStr "host:1:s")
              "/data") as [Hok _].
  - reflexivity.
  - reflexivity.
  - discriminate.
  - destruct Hok as (st' & Hrun & _ & Hd); [left; reflexivity |].
    exists st'. split; [exact Hrun |]. rewrite Hd. reflexivity.
Defined.

(** X7. There is no rollback: when the write fails, with the directory
    still there or for any other reason, [set_key] raises
    ([FileNotFoundError], [OSError]) after the settings have been changed in
    memory, and they stay changed. *)
Theorem set_key_failed_write `{Imports} (st : SimpleConfig) (key : string)
    (v : value) (s : string) (o : write_outcome)
    (rest : list write_outcome) :
  cmdline_options st !! key = None ->
  path st = VStr s -> s <> "" ->
  fs st = o :: rest -> write_raises o = true ->
  exists e st',
    set_key key v true st = (Raise e, st') /\
    (e = FileNotFoundError \/ e = OSError) /\
    user_config st' =
      (if negb (is_none v) then <[key := v]> (user_config st)
       else delete key (user_config st)) /\
    (v <> VNone -> forall d, get st' key d = v).
Proof.
  intros Hc Hp Hs Hfs Ho.
  rewrite (set_key_modifiable _ _ _ _ Hc), _set_key_in_user_config_saved.
  match goal with |- context [save_user_config ?x] =>
    rewrite (save_user_config_outcome x s) by assumption end.
  cbn [fs disk user_config with_user_config]. rewrite Hfs.
  assert (v <> VNone ->
          forall d rest',
            get (with_fs rest'
                   (with_user_config
                      (if negb (is_none v) then <[key := v]> (user_config st)
                       else delete key (user_config st)) st)) key d = v)
    as Hget.
  { intros Hv d rest'. rewrite get_unset by exact Hc.
    cbn [user_config with_fs with_user_config].
    assert (is_none v = false) as -> by (destruct v; cbn; congruence).
    apply dict_get_Some, lookup_insert_eq. }
  destruct o; try discriminate Ho;
    do 2 eexists; (split; [reflexivity |]);
    (split; [auto |]); (split; [reflexivity |]);
    intros Hv d; apply Hget, Hv.
Qed.

(** A write refused by the file system. *)
Lemma set_key_failed_write_witness :
  exists e st',
    @set_key posix "server" (VStr "host:1:s") true
      (with_fs [WriteError] (config_of ∅ ∅)) = (Raise e, st') /\
    user_config st' !! "server" = Some (VStr "host:1:s").
Proof.
  destruct (@set_key_failed_write posix (with_fs [WriteError] (config_of ∅ ∅))
              "server" (VStr "host:1:s") "/data" WriteError [])
    as (e & st' & Hrun & _ & Hu & _).
  - reflexivity.
  - reflexivity.
  - discriminate.
  - reflexivity.
  - reflexivity.
  - exists e, st'. split; [exact Hrun |]. rewrite Hu. reflexivity.
Defined.

(** X8. [set_key] on one key never changes what [get] returns for another
    key, whatever the value, the [save] flag and the file system. *)
Theorem set_key_other_keys `{Imports} (st : SimpleConfig)
    (key other : string) (v dflt : value) (save : bool) :
  other <> key ->
  get (snd (set_key key v save st)) other dflt = get st other dflt.
Proof.
  intros Hne.
  destruct (cmdline_options st !! key) eqn:Hc.
  - rewrite set_key_fixed by (rewrite Hc; eauto). reflexivity.
  - rewrite (set_key_modifiable _ _ _ _ Hc).
    destruct (_set_key_in_user_config_frame key v save st)
      as (r & st' & Hrun & Hc' & Hu & _).
    rewrite Hrun. cbn [snd]. unfold get, dict_get. rewrite Hc', Hu.
    destruct (negb (is_none v));
      [rewrite lookup_insert_ne by congruence
      | rewrite lookup_delete_ne by congruence]; reflexivity.
Qed.

(** Changing the server leaves the proxy setting alone. *)
Lemma set_key_other_keys_witness :
  get (snd (@set_key posix "server" (VStr "a:1:s") true
              (config_of ∅ {[ "proxy" := VStr "none" ]})))
      "proxy" VNone = VStr "none".
Proof.
  rewrite (@set_key_other_keys posix
             (config_of ∅ {[ "proxy" := VStr "none" ]}) "server" "proxy").
  - reflexivity.
  - discriminate.
Defined.

(** ** Session timeout *)

(** X9. The session timeout reads 300 when it is set nowhere.  With the
    key absent from the command line, it reads the number just set after
    [set_session_timeout], whatever the save does.  With the key on the
    command line, even with the value [None], [set_session_timeout] changes
    nothing at all: the timeout still reads the command-line value, or,
    when that value is [None], the persisted value or else 300. *)
Theorem session_timeout_round_trip `{Imports} (st : SimpleConfig)
    (seconds : Z) :
  (cmdline_options st !! "session_timeout" = None ->
   user_config st !! "session_timeout" = None ->
   get_session_timeout st = VInt 300) /\
  (cmdline_options st !! "session_timeout" = None ->
   get_session_timeout (snd (set_session_timeout seconds st)) =
   VInt seconds) /\
  (is_Some (cmdline_options st !! "session_timeout") ->
   set_session_timeout seconds st = (Ok tt, st)) /\
  (forall v, cmdline_options st !! "session_timeout" = Some v ->
   v <> VNone ->
   get_session_timeout (snd (set_session_timeout seconds st)) = v) /\
  (cmdline_options st !! "session_timeout" = Some VNone ->
   get_session_timeout (snd (set_session_timeout seconds st)) =
   dict_get (user_config st) "session_timeout" (VInt 300)).
Proof.
  unfold get_session_timeout, set_session_timeout.
  split; [| split; [| split; [| split]]].
  - intros Hc Hu. rewrite get_unset by exact Hc.
    apply dict_get_None, Hu.
  - intros Hc. rewrite (set_key_modifiable _ _ _ _ Hc).
    destruct (_set_key_in_user_config_frame "session_timeout"
                (VInt seconds) true st) as (r & st' & Hrun & Hc' & Hu & _).
    rewrite Hrun. cbn [snd]. rewrite get_unset by congruence.
    rewrite Hu. cbn [is_none negb]. apply dict_get_Some, lookup_insert_eq.
  - intros Hc. apply set_key_fixed, Hc.
  - intros v Hc Hv. rewrite set_key_fixed by (rewrite Hc; eauto).
    cbn [snd]. unfold get. rewrite (dict_get_Some _ _ _ _ Hc).
    destruct v; try reflexivity. congruence.
  - intros Hc. rewrite set_key_fixed by (rewrite Hc; eauto).
    cbn [snd]. unfold get. rewrite (dict_get_Some _ _ _ _ Hc). reflexivity.
Qed.

(** ** Migration and the file system *)

Section MigrationOnDisk.
Context `{Imports}.

Lemma convert_server_accepting st :
  accepting st = true ->
  exists st', convert_server st = (Ok tt, st') /\ accepting st' = true /\
    disk st' = (disk st ++ [user_config st'])%list /\
    cmdline_options st' = cmdline_options st /\
    user_config st' = server_converted (user_config st).
Proof.
  intros Ha.
  destruct (_set_key_in_user_config_accepting "server" VNone st Ha)
    as (sd & Hd & Had & Hdd & Hcd & Hud).
  cbn [is_none negb] in Hud.
  unfold convert_server, try_except, server_converted. run_self.
  destruct (rsplit _ _ _) as [| h [| p [| q [| ? ?]]]];
    try (unfold raise at 1; exists sd; rewrite Hd, <- Hud; auto).
  destruct (String.eqb q "s" || String.eqb q "t"); cbn [negb andb];
    [| unfold raise at 1; exists sd; rewrite Hd, <- Hud; auto].
  destruct (py_int_ok p); cbn [negb];
    [| unfold raise at 1; exists sd; rewrite Hd, <- Hud; auto].
  destruct (_set_key_in_user_config_accepting "server"
              (VStr (h ++ ":" ++ p ++ ":s")) st Ha)
    as (ss & Hs & Has & Hds & Hcs & Hus).
  cbn [is_none negb] in Hus.
  exists ss. rewrite Hs, <- Hus. auto.
Qed.

Lemma upgrade_accepting st :
  accepting st = true ->
  cmdline_options st !! "config_version" = None ->
  as_int (get st "config_version" (VInt 1)) = Some 1 ->
  exists st', upgrade st = (Ok tt, st') /\
    user_config st' =
      <["config_version" := VInt 2]>
        (server_converted (renamed (user_config st))) /\
    disk st' =
      (disk st ++ [server_converted (renamed (user_config st));
                   user_config st'; user_config st'])%list.
Proof.
  intros Ha Hc Hv. unfold upgrade, convert_version_2.
  rewrite !run_bind.
  rewrite (_is_upgrade_method_needed_run st 1 1 1 Hv).
  cbv beta iota. cbn [Z.gtb Z.ltb Z.compare Pos.compare Pos.compare_cont negb].
  run_self. run_update. rewrite run_bind.
  destruct (convert_server_accepting
              (with_user_config
                 (snd (rename_config_keys (user_config st)
                         [("auto_cycle", "auto_connect")])) st) Ha)
    as (s1 & H1 & Ha1 & Hd1 & Hc1 & Hu1).
  rewrite H1. cbv beta iota.
  cbn [cmdline_options disk user_config with_user_config] in Hc1, Hd1, Hu1.
  fold (renamed (user_config st)) in Hu1.
  rewrite set_key_modifiable by congruence.
  destruct (_set_key_in_user_config_accepting "config_version" (VInt 2)
              s1 Ha1) as (s2 & H2 & Ha2 & Hd2 & Hc2 & Hu2).
  rewrite H2. cbv beta iota. cbn [is_none negb] in Hu2.
  rewrite set_key_modifiable by congruence.
  destruct (_set_key_in_user_config_accepting "config_version"
              (VInt FINAL_CONFIG_VERSION) s2 Ha2)
    as (s3 & H3 & Ha3 & Hd3 & Hc3 & Hu3).
  rewrite H3. cbn [is_none negb] in Hu3.
  assert (user_config s3 = user_config s2) as Hsame.
  { rewrite Hu3, Hu2. apply insert_insert_eq. }
  exists s3. split; [reflexivity |]. split.
  - rewrite Hsame, Hu2, Hu1. reflexivity.
  - rewrite Hd3, Hd2, Hd1, Hsame, Hu1, <- !app_assoc. reflexivity.
Qed.

End MigrationOnDisk.

(** X10. The [try] block of [convert_version_2] swallows a failed write:
    when the first save raises and the later ones are accepted, the
    conversion returns normally and a server of the legacy form, which
    parsed without error, ends up removed. *)
Theorem convert_server_swallows_write_error `{Imports} (st : SimpleConfig)
    (s host port protocol pth : string) (o : write_outcome)
    (rest : list write_outcome) :
  path st = VStr pth -> pth <> "" ->
  fs st = o :: rest -> write_raises o = true ->
  forallb (fun o => negb (write_raises o)) rest = true ->
  user_config st !! "server" = Some (VStr s) ->
  legacy_server s host port protocol ->
  exists st',
    convert_server st = (Ok tt, st') /\
    user_config st' = delete "server" (user_config st).
Proof.
  intros Hp Hne Hfs Ho Hrest Hs (-> & Hport & Hproto).
  unfold convert_server, try_except. run_self.
  rewrite (dict_get_Some _ _ _ _ Hs). cbn [py_str].
  rewrite rsplit_three;
    [| apply py_int_ok_no_colon, Hport
     | destruct Hproto as [-> | ->]; reflexivity].
  assert (String.eqb protocol "s" || String.eqb protocol "t" = true) as ->
    by (destruct Hproto as [-> | ->]; reflexivity).
  rewrite Hport. cbn [negb].
  rewrite _set_key_in_user_config_saved.
  match goal with |- context [save_user_config ?x] =>
    rewrite (save_user_config_outcome x pth) by assumption end.
  cbn [fs with_user_config]. rewrite Hfs.
  match goal with
  | |- context [with_fs rest ?x] =>
      destruct (_set_key_in_user_config_quiet "server" VNone (with_fs rest x))
        as (sd & Hd & _ & _ & Hud)
  end.
  { unfold quiet. cbn [path fs with_fs with_user_config].
    rewrite Hp, Hrest. reflexivity. }
  cbn [is_none negb user_config with_fs with_user_config] in Hud.
  rewrite delete_insert_eq in Hud.
  destruct o; try discriminate Ho; exists sd; rewrite Hd; auto.
Qed.

(** A valid server, a first write that is refused. *)
Lemma convert_server_swallows_write_error_witness :
  exists st',
    @convert_server posix (with_fs [WriteError] (config_of ∅ legacy_example))
      = (Ok tt, st') /\
    user_config st' !! "server" = None.
Proof.
  destruct (@convert_server_swallows_write_error posix
              (with_fs [WriteError] (config_of ∅ legacy_example))
              "host:50001:t" "host" "50001" "t" "/data" WriteError [])
    as (st' & Hrun & Hu).
  - reflexivity.
  - discriminate.
  - reflexivity.
  - reflexivity.
  - reflexivity.
  - vm_compute. reflexivity.
  - split; [reflexivity |].
    split; [vm_compute; reflexivity | right; reflexivity].
  - exists st'. split; [exact Hrun |]. rewrite Hu. apply lookup_delete_eq.
Defined.

(** X11. A construction that loads settings at version 1, on a file system
    that takes every write, completes with the migrated settings and has
    written the config file three times: after the server conversion, and
    twice with the final settings, which are what the file holds at the
    end. *)
Theorem init_migration_saved `{Imports}
    (options : option (gmap string value))
    (reader : value -> option (gmap string value)) (dir : value)
    (fs0 : list write_outcome) (p : value) (u : gmap string value) :
  electrum_path (new_object options dir fs0) =
    (Ok p, new_object options dir fs0) ->
  accepting (settled options dir fs0 p u) = true ->
  reader p = Some u ->
  u !! "config_version" = Some (VInt 1) ->
  exists st,
    __init__ options reader dir fs0 = (Ok tt, st) /\
    user_config st =
      <["config_version" := VInt 2]> (server_converted (renamed u)) /\
    disk st =
      [server_converted (renamed u); user_config st; user_config st] /\
    last (disk st) = Some (user_config st).
Proof.
  intros Hp Ha Hr Hu.
  assert (loaded_settings (reader p) = u) as Hl.
  { rewrite Hr. cbn [loaded_settings].
    rewrite bool_decide_eq_false_2; [reflexivity |].
    intros ->. rewrite lookup_empty in Hu. discriminate. }
  assert (as_int (get (settled options dir fs0 p u) "config_version" (VInt 1))
          = Some 1) as Hv.
  { rewrite settled_version, (dict_get_Some _ _ _ _ Hu). reflexivity. }
  rewrite (init_run _ reader _ _ _ Hp), Hl, run_bind.
  rewrite (requires_upgrade_run _ _ Hv). cbv beta iota.
  cbn [Z.ltb Z.compare FINAL_CONFIG_VERSION Pos.compare Pos.compare_cont].
  destruct (upgrade_accepting _ Ha (settled_no_version _ _ _ _ _) Hv)
    as (st & Hrun & Hus & Hds).
  cbn [settled user_config disk app] in Hus, Hds.
  exists st. split; [exact Hrun |]. split; [exact Hus |].
  split; [exact Hds |]. rewrite Hds. reflexivity.
Qed.

(** The legacy example, loaded from [/data]. *)
Lemma init_migration_saved_witness :
  exists st,
    @__init__ posix None (fun _ => Some legacy_example) (VStr "/data") [] =
      (Ok tt, st) /\
    last (disk st) = Some (user_config st).
Proof.
  destruct (@init_migration_saved posix None (fun _ => Some legacy_example)
              (VStr "/data") [] (VStr "/data") legacy_example)
    as (st & Hrun & _ & _ & Hlast).
  - vm_compute. reflexivity.
  - reflexivity.
  - reflexivity.
  - vm_compute. reflexivity.
  - exists st. split; [exact Hrun | exact Hlast].
Defined.

(** ** The last wallet *)

Lemma open_last_wallet_run (os_path_exists : value -> bool) st :
  open_last_wallet os_path_exists st =
  (Ok tt,
   if is_none (get st "wallet_path" VNone)
      && negb (is_none (get st "gui_last_wallet" VNone))
      && os_path_exists (get st "gui_last_wallet" VNone)
   then with_cmdline_options
          (<["default_wallet_path" := get st "gui_last_wallet" VNone]>
             (cmdline_options st)) st
   else st).
Proof.
  unfold open_last_wallet. run_self.
  destruct (is_none (get st "wallet_path" VNone)); [| reflexivity].
  destruct (negb (is_none (get st "gui_last_wallet" VNone))); [| reflexivity].
  destruct (os_path_exists (get st "gui_last_wallet" VNone)); reflexivity.
Qed.

Lemma get_cmdline_set st key v dflt :
  v <> VNone ->
  get (with_cmdline_options (<[key := v]> (cmdline_options st)) st) key dflt
  = v.
Proof.
  intros Hv. unfold get. cbn [cmdline_options with_cmdline_options].
  rewrite (dict_get_Some _ _ _ v) by apply lookup_insert_eq.
  destruct v; try reflexivity. congruence.
Qed.

(** X12. [open_last_wallet] changes the object only when no wallet path is
    given, a last wallet is recorded and that file exists; it then writes
    the last wallet into the command-line options as [default_wallet_path]:
    [get] returns it from then on, the persisted settings and the disk are
    untouched, and the key can no longer be changed by [set_key]. *)
Theorem open_last_wallet_pins `{Imports} (os_path_exists : value -> bool)
    (st : SimpleConfig) :
  (get st "wallet_path" VNone <> VNone \/
   get st "gui_last_wallet" VNone = VNone \/
   os_path_exists (get st "gui_last_wallet" VNone) = false ->
   open_last_wallet os_path_exists st = (Ok tt, st)) /\
  (get st "wallet_path" VNone = VNone ->
   get st "gui_last_wallet" VNone <> VNone ->
   os_path_exists (get st "gui_last_wallet" VNone) = true ->
   exists st',
     open_last_wallet os_path_exists st = (Ok tt, st') /\
     (forall d,
        get st' "default_wallet_path" d = get st "gui_last_wallet" VNone) /\
     user_config st' = user_config st /\ disk st' = disk st /\
     is_modifiable st' "default_wallet_path" = false /\
     (forall v save,
        set_key "default_wallet_path" v save st' = (Ok tt, st'))).
Proof.
  rewrite open_last_wallet_run. split.
  - intros [Hw | [Hl | He]].
    + destruct (get st "wallet_path" VNone); try reflexivity. congruence.
    + rewrite Hl. cbn. rewrite andb_false_r. reflexivity.
    + rewrite He, andb_false_r. reflexivity.
  - intros Hw Hl He. rewrite Hw, He.
    assert (is_none (get st "gui_last_wallet" VNone) = false) as ->
      by (destruct (get st "gui_last_wallet" VNone); cbn; congruence).
    cbn [is_none negb andb]. eexists. split; [reflexivity |].
    split; [intros d; apply get_cmdline_set, Hl |].
    split; [reflexivity |]. split; [reflexivity |].
    assert (is_Some
              (cmdline_options
                 (with_cmdline_options
                    (<["default_wallet_path" :=
                         get st "gui_last_wallet" VNone]>
                       (cmdline_options st)) st)
               !! "default_wallet_path")) as Hset.
    { cbn [cmdline_options with_cmdline_options].
      rewrite lookup_insert_eq. eauto. }
    split; [apply is_modifiable_false, Hset |].
    intros v save. apply set_key_fixed, Hset.
Qed.

(** X13. After [save_last_wallet] has recorded a wallet path, with no wallet
    path given and [gui_last_wallet] not fixed on the command line,
    [open_last_wallet] makes that path the [default_wallet_path], provided
    the file exists; this holds whatever the save did. *)
Theorem last_wallet_round_trip `{Imports} (os_path_exists : value -> bool)
    (st : SimpleConfig) (wallet_storage_path : value) :
  get st "wallet_path" VNone = VNone ->
  cmdline_options st !! "gui_last_wallet" = None ->
  wallet_storage_path <> VNone ->
  os_path_exists wallet_storage_path = true ->
  forall d,
    get (snd (open_last_wallet os_path_exists
                (snd (save_last_wallet wallet_storage_path st))))
      "default_wallet_path" d = wallet_storage_path.
Proof.
  intros Hw Hc Hp He d.
  unfold save_last_wallet. rewrite run_bind. unfold self at 1.
  cbv beta iota. rewrite Hw. cbn [is_none].
  rewrite (set_key_modifiable _ _ _ _ Hc).
  destruct (_set_key_in_user_config_frame "gui_last_wallet"
              wallet_storage_path true st)
    as (r & st1 & Hrun & Hc1 & Hu1 & _).
  rewrite Hrun. cbn [snd].
  assert (is_none wallet_storage_path = false) as Hn
    by (destruct wallet_storage_path; cbn; congruence).
  rewrite Hn in Hu1. cbn [negb] in Hu1.
  assert (get st1 "wallet_path" VNone = VNone) as Hw1.
  { revert Hw. unfold get, dict_get. rewrite Hc1, Hu1.
    rewrite lookup_insert_ne by discriminate. auto. }
  assert (get st1 "gui_last_wallet" VNone = wallet_storage_path) as Hl1.
  { rewrite get_unset by congruence. rewrite Hu1.
    apply dict_get_Some, lookup_insert_eq. }
  rewrite open_last_wallet_run, Hw1, Hl1, Hn, He.
  cbn [is_none negb andb snd]. apply get_cmdline_set, Hp.
Qed.

(** Recording and reopening [/w/a]. *)
Lemma last_wallet_round_trip_witness :
  get (snd (open_last_wallet (fun _ => true)
              (snd (@save_last_wallet posix (VStr "/w/a") (config_of ∅ ∅)))))
    "default_wallet_path" VNone = VStr "/w/a".
Proof.
  apply (@last_wallet_round_trip posix (fun _ => true) (config_of ∅ ∅)
           (VStr "/w/a"));
    first [reflexivity | discriminate].
Defined.

(** ** The video device *)

(** X14. [get_video_device] never returns the string [default]: that
    value, which is also what an unset key reads as, becomes the empty
    string; any other configured value is returned as it is. *)
Theorem get_video_device_default (st : SimpleConfig) :
  get_video_device st <> VStr "default" /\
  (get st "video_device" (VStr "default") = VStr "default" ->
   get_video_device st = VStr "") /\
  (get st "video_device" (VStr "default") <> VStr "default" ->
   get_video_device st = get st "video_device" (VStr "default")).
Proof.
  unfold get_video_device.
  destruct (get st "video_device" (VStr "default")) as [| b | z | s];
    try (repeat split; (discriminate || congruence || reflexivity)).
  destruct (String.eqb s "default") eqn:E.
  - apply String.eqb_eq in E. subst s. split; [discriminate |].
    split; [reflexivity | congruence].
  - apply String.eqb_neq in E. split; [congruence |].
    split; [congruence | reflexivity].
Qed.

(** ** The fee ceiling and the static scale *)

(** X15. Unless the compiled ceiling is itself zero, [max_fee_rate] never
    returns zero: a configured 0 (or [False]) is replaced by the ceiling.
    So [static_fee_index] never divides by zero: it returns 10, or raises
    [TypeError] when the configured rate is not a number. *)
Theorem max_fee_rate_never_zero `{Imports} (st : SimpleConfig) :
  MAX_FEE_RATE <> 0 ->
  py_eq_zero (max_fee_rate st) = false /\
  (py_eq_zero (get st "max_fee_rate" (VInt MAX_FEE_RATE)) = true ->
   max_fee_rate st = VInt MAX_FEE_RATE) /\
  (forall v,
     static_fee_index st v = Ok 10 \/
     static_fee_index st v = Raise TypeError).
Proof.
  intros Hmax.
  assert (py_eq_zero (max_fee_rate st) = false) as Hnz.
  { unfold max_fee_rate.
    destruct (py_eq_zero (get st "max_fee_rate" (VInt MAX_FEE_RATE))) eqn:E;
      [| exact E].
    unfold py_eq_zero. cbn [as_int]. lia. }
  split; [exact Hnz |]. split.
  - intros Hz. unfold max_fee_rate. rewrite Hz. reflexivity.
  - intros v. unfold static_fee_index, num_of.
    unfold py_eq_zero in Hnz.
    destruct (as_int (max_fee_rate st)) as [m |]; [| right; reflexivity].
    left. destruct (Qeq_bool (inject_Z m) 0) eqn:E.
    + apply Qeq_bool_iff in E. unfold Qeq in E. cbn in E. lia.
    + rewrite py_clamp_ten. reflexivity.
Qed.

(** A configured rate of zero falls back to the ceiling of 300000. *)
Lemma max_fee_rate_never_zero_witness :
  @max_fee_rate posix (config_of ∅ {[ "max_fee_rate" := VInt 0 ]}) =
  VInt 300000.
Proof.
  refine (proj1 (proj2 (@max_fee_rate_never_zero posix
                          (config_of ∅ {[ "max_fee_rate" := VInt 0 ]}) _)) _).
  - discriminate.
  - vm_compute. reflexivity.
Defined.

(** X16. With a numeric [max_fee_rate] of [m], [static_fee] is defined at
    every level, level 10 gives [m] itself, level 0 gives four tenths of
    it, and for a positive [m] a higher level gives a higher fee. *)
Theorem static_fee_scale `{Imports} (st : SimpleConfig) (m : Z) :
  as_int (max_fee_rate st) = Some m ->
  (exists f, static_fee st 10 = Ok f /\ (f == inject_Z m)%Q) /\
  (exists f, static_fee st 0 = Ok f /\ (f == (4 # 10) * inject_Z m)%Q) /\
  (forall i j, 0 < m -> i < j ->
     exists fi fj,
       static_fee st i = Ok fi /\ static_fee st j = Ok fj /\ (fi < fj)%Q).
Proof.
  intros Hm. unfold static_fee, num_of. rewrite Hm. split; [| split].
  - eexists. split; [reflexivity |].
    change (inject_Z 10) with (10 # 1). ring.
  - eexists. split; [reflexivity |].
    change (inject_Z 0) with (0 # 1). ring.
  - intros i j Hpos Hij. do 2 eexists.
    split; [reflexivity |]. split; [reflexivity |].
    assert (0 < inject_Z m)%Q as Hm'
      by (change 0%Q with (inject_Z 0); rewrite <- Zlt_Qlt; exact Hpos).
    assert (inject_Z i < inject_Z j)%Q as Hij'
      by (rewrite <- Zlt_Qlt; exact Hij).
    nra.
Qed.

(** The scale of the default ceiling. *)
Lemma static_fee_scale_witness :
  exists f,
    @static_fee posix (config_of ∅ ∅) 10 = Ok f /\ (f == inject_Z 300000)%Q.
Proof.
  refine (proj1 (@static_fee_scale posix (config_of ∅ ∅) 300000 _)).
  vm_compute. reflexivity.
Defined.

(** ** Dynamic fees *)

Section DynamicFees.
Context `{Imports}.

Lemma complete_samples_targets st :
  complete_samples st = true ->
  has_fee_estimates st = true /\
  is_Some (fee_get (fee_estimates st) 25) /\
  is_Some (fee_get (fee_estimates st) 10) /\
  is_Some (fee_get (fee_estimates st) 5) /\
  is_Some (fee_get (fee_estimates st) 2).
Proof.
  unfold complete_samples, has_fee_estimates.
  intros [Hlen Hall]%andb_true_iff. split; [exact Hlen |].
  cbn [forallb FEE_TARGETS] in Hall.
  apply andb_true_iff in Hall as [H25 Hall].
  apply andb_true_iff in Hall as [H10 Hall].
  apply andb_true_iff in Hall as [H5 Hall].
  apply andb_true_iff in Hall as [H2 _].
  apply bool_decide_eq_true in H25, H10, H5, H2. auto.
Qed.

Lemma py_minQ_le_l (a b : Q) : (py_minQ a b <= a)%Q.
Proof. rewrite py_minQ_min. apply Q.le_min_l. Qed.

Lemma dynfee_bound st i f :
  dynfee st i = Ok (Some f) -> (f <= inject_Z (5 * MAX_FEE_RATE))%Q.
Proof.
  unfold dynfee. destruct (i <? 4).
  - destruct (py_index FEE_TARGETS i) as [j | e]; [| discriminate].
    destruct (fee_get (fee_estimates st) j); [| discriminate].
    intros [= <-]. apply py_minQ_le_l.
  - destruct (negb (i =? 4)); [discriminate |].
    destruct (fee_get (fee_estimates st) 2); [| discriminate].
    intros [= <-]. apply py_minQ_le_l.
Qed.

Lemma dynfee_defined st i :
  complete_samples st = true -> 0 <= i <= 4 ->
  exists f, dynfee st i = Ok (Some f).
Proof.
  intros Hc Hi.
  destruct (complete_samples_targets st Hc)
    as (_ & [s25 H25] & [s10 H10] & [s5 H5] & [s2 H2]).
  assert (forall k j,
            py_index FEE_TARGETS k = Ok j -> (k <? 4) = true ->
            dynfee st k =
            Ok (match fee_get (fee_estimates st) j with
                | Some f => Some (py_minQ (inject_Z (5 * MAX_FEE_RATE)) f)
                | None => None
                end)) as Hlevel.
  { intros k j Hk Hlt. unfold dynfee. rewrite Hlt, Hk. reflexivity. }
  assert (i = 0 \/ i = 1 \/ i = 2 \/ i = 3 \/ i = 4) as Hcases by lia.
  destruct Hcases as [-> | [-> | [-> | [-> | ->]]]].
  - eexists. rewrite (Hlevel 0 25), H25; reflexivity.
  - eexists. rewrite (Hlevel 1 10), H10; reflexivity.
  - eexists. rewrite (Hlevel 2 5), H5; reflexivity.
  - eexists. rewrite (Hlevel 3 2), H2; reflexivity.
  - eexists. rewrite dynfee_top, H2. reflexivity.
Qed.

Lemma reverse_dynfee_scan st (rate s25 s5 : Q) :
  has_fee_estimates st = true ->
  fee_get (fee_estimates st) 25 = Some s25 ->
  fee_get (fee_estimates st) 5 = Some s5 ->
  ~ (dynamic_fees_enabled st /\ (s25 == s5)%Q /\ (s5 <= rate)%Q) ->
  reverse_dynfee st rate = nearest_target st rate.
Proof.
  intros Hfe H25 H5 Hnot. unfold reverse_dynfee. cbv zeta.
  rewrite (is_dynfee_truthy st Hfe), H25, H5. cbn [opt_num_eq].
  destruct (py_truthy (get st "dynamic_fees" (VBool false))) eqn:Hon;
    [| reflexivity].
  destruct (Qeq_bool s25 s5) eqn:Heq; [| reflexivity].
  destruct (Qle_bool s5 rate) eqn:Hle; [| reflexivity].
  exfalso. apply Hnot. split; [exact Hon |].
  split; [apply Qeq_bool_iff, Heq | apply Qle_bool_iff, Hle].
Qed.


End DynamicFees.

(** X17. Whatever the level and the samples, a fee that [dynfee] returns
    is at most five times the compiled ceiling. *)
Theorem dynfee_capped `{Imports} (st : SimpleConfig) (i : Z) (f : Q) :
  dynfee st i = Ok (Some f) -> (f <= inject_Z (5 * MAX_FEE_RATE))%Q.
Proof. apply dynfee_bound. Qed.

(** Level 0 of the flat market is its 25-block sample. *)
Lemma dynfee_capped_witness :
  (inject_Z 500 <= inject_Z (5 * 300000))%Q.
Proof.
  apply (@dynfee_capped posix flat_market 0 (inject_Z 500)).
  vm_compute. reflexivity.
Defined.

(** X18. With all four samples in the map [reverse_dynfee] always returns,
    and what it returns is 5, -1, the synthetic target 1, or a target of
    the map. *)
Theorem reverse_dynfee_range `{Imports} (st : SimpleConfig) (rate : Q) :
  complete_samples st = true ->
  exists t,
    reverse_dynfee st rate = Ok t /\
    (t = 5 \/ t = -1 \/ t = 1 \/ exists f, (t, f) ∈ fee_estimates st).
Proof.
  intros Hc.
  destruct (complete_samples_targets st Hc)
    as (Hfe & [s25 H25] & _ & [s5 H5] & _).
  destruct (nearest_target_run st rate s25 Hc H25)
    as (top & t & _ & (i & f & Hi & _) & Hrun).
  assert (t = 1 \/ exists f, (t, f) ∈ fee_estimates st) as Ht.
  { unfold candidates in Hi.
    apply lookup_app_Some in Hi as [Hi | [_ Hi]].
    - right. exists f. exact (list_elem_of_lookup_2 _ _ _ Hi).
    - apply list_lookup_singleton_Some in Hi as [_ [= <- _]]. left.
      reflexivity. }
  unfold reverse_dynfee. cbv zeta.
  rewrite (is_dynfee_truthy st Hfe), H25, H5. cbn [opt_num_eq].
  destruct (py_truthy (get st "dynamic_fees" (VBool false))
            && Qeq_bool s25 s5).
  - destruct (Qle_bool s5 rate); [exists 5; auto |].
    rewrite Hrun. destruct (Qltb rate (s25 / inject_Z 2));
      eexists; (split; [reflexivity | tauto]).
  - rewrite Hrun. destruct (Qltb rate (s25 / inject_Z 2));
      eexists; (split; [reflexivity | tauto]).
Qed.

(** The flat market at a low rate. *)
Lemma reverse_dynfee_range_witness :
  exists t, @reverse_dynfee posix flat_market (inject_Z 100) = Ok t.
Proof.
  destruct (@reverse_dynfee_range posix flat_market (inject_Z 100))
    as (t & Hrun & _).
  - reflexivity.
  - exists t. exact Hrun.
Defined.



(** X20. [reverse_dynfee] inverts a sample: given exactly the fee of an
    entry of a complete map, it returns that entry's target, provided no
    earlier entry has the same fee, the fee is not below half the 25-block
    sample, and the flat-market shortcut does not apply. *)
Theorem reverse_dynfee_of_sample `{Imports} (st : SimpleConfig)
    (i : nat) (t : Z) (f s25 s5 : Q) :
  complete_samples st = true ->
  fee_get (fee_estimates st) 25 = Some s25 ->
  fee_get (fee_estimates st) 5 = Some s5 ->
  ~ (dynamic_fees_enabled st /\ (s25 == s5)%Q /\ (s5 <= f)%Q) ->
  fee_estimates st !! i = Some (t, f) ->
  (forall j t' f', (j < i)%nat -> fee_estimates st !! j = Some (t', f') ->
     ~ (f' == f)%Q) ->
  ~ (f < s25 / inject_Z 2)%Q ->
  reverse_dynfee st f = Ok t.
Proof.
  intros Hc H25 H5 Hshort Hi Hfirst Hhalf.
  destruct (complete_samples_targets st Hc) as (Hfe & _).
  rewrite (reverse_dynfee_scan st f s25 s5 Hfe H25 H5 Hshort).
  destruct (nearest_target_run st f s25 Hc H25)
    as (top & t0 & _ & (i0 & f0 & Hi0 & Hle & Hlt) & Hrun).
  rewrite Hrun.
  destruct (Qltb f (s25 / inject_Z 2)) eqn:E;
    [exfalso; apply Hhalf, Qltb_lt, E |].
  assert (candidates st top !! i = Some (t, f)) as Hcand
    by (apply lookup_app_l_Some, Hi).
  assert (Qabs (f - f) == 0)%Q as Hzero.
  { assert (f - f == 0)%Q as -> by ring. reflexivity. }
  assert (f0 == f)%Q as Hsame.
  { pose proof (Hle i t f Hcand) as Hd. rewrite Hzero in Hd.
    apply Qabs_Qle_condition in Hd as [Hlo Hhi].
    assert (f0 - f == 0)%Q as Hdiff by (apply Qle_antisym; assumption).
    lra. }
  assert (i0 = i) as ->.
  { destruct (lt_eq_lt_dec i0 i) as [[Hlt' | Heq] | Hgt]; [| exact Heq |].
    - exfalso.
      assert (fee_estimates st !! i0 = Some (t0, f0)) as Hin.
      { unfold candidates in Hi0.
        apply lookup_app_Some in Hi0 as [Hi0 | [Hlen _]]; [exact Hi0 |].
        apply lookup_lt_Some in Hi. lia. }
      exact (Hfirst i0 t0 f0 Hlt' Hin Hsame).
    - exfalso. pose proof (Hlt i t f Hgt Hcand) as Hd.
      rewrite Hzero in Hd.
      exact (Qle_not_lt _ _ (Qabs_nonneg (f0 - f)) Hd). }
  rewrite Hcand in Hi0. injection Hi0 as <- _. reflexivity.
Qed.

(** The 2-block sample of the flat market, with dynamic fees off. *)
Lemma reverse_dynfee_of_sample_witness :
  @reverse_dynfee posix (with_user_config ∅ flat_market) (inject_Z 1000)
  = Ok 2.
Proof.
  apply (@reverse_dynfee_of_sample posix (with_user_config ∅ flat_market)
           3%nat 2 (inject_Z 1000) (inject_Z 500) (inject_Z 500)).
  - reflexivity.
  - reflexivity.
  - reflexivity.
  - intros (Hon & _). vm_compute in Hon. discriminate.
  - reflexivity.
  - intros j t' f' Hj Hl Heq.
    destruct j as [| [| [| j]]]; [| | | lia];
      cbn in Hl; injection Hl as <- <-; vm_compute in Heq; discriminate.
  - intros Hlt. vm_compute in Hlt. discriminate.
Defined.

(** ** The fee per kilobyte *)

(** X21. In dynamic mode with all four samples and a fee level from 0 to
    4 (2 when none is configured is inside that range), [fee_per_kb]
    returns a number, and that number is at most five times the compiled
    ceiling. *)
Theorem fee_per_kb_dynamic_capped `{Imports} (st : SimpleConfig)
    (level : Z) :
  complete_samples st = true ->
  dynamic_fees_enabled st ->
  as_int (get st "fee_level" (VInt 2)) = Some level ->
  0 <= level <= 4 ->
  exists f,
    fee_per_kb st = Ok (RateNumber f) /\
    (f <= inject_Z (5 * MAX_FEE_RATE))%Q.
Proof.
  intros Hc Hon Hl Hrange.
  destruct (complete_samples_targets st Hc) as (Hfe & _).
  destruct (dynfee_defined st level Hc Hrange) as [f Hf].
  exists f. split; [| exact (dynfee_bound st level f Hf)].
  unfold fee_per_kb. cbv zeta.
  rewrite (is_dynfee_truthy st Hfe), Hon, Hl, Hf. reflexivity.
Qed.

(** The flat market at the default level. *)
Lemma fee_per_kb_dynamic_capped_witness :
  exists f, @fee_per_kb posix flat_market = Ok (RateNumber f).
Proof.
  destruct (@fee_per_kb_dynamic_capped posix flat_market 2)
    as (f & Hrun & _).
  - reflexivity.
  - reflexivity.
  - reflexivity.
  - lia.
  - exists f. exact Hrun.
Defined.

(** X22. Outside dynamic mode [fee_per_kb] first needs [max_fee_rate] to be
    a number: it raises [TypeError] otherwise, even when a rate is
    configured.  Then the command-line [fee_per_kb] wins when it has a
    value, else the persisted one (a stored [None] included), else half of
    [max_fee_rate]. *)
Theorem fee_per_kb_static `{Imports} (st : SimpleConfig) :
  py_truthy (is_dynfee st) = false ->
  (as_int (max_fee_rate st) = None -> fee_per_kb st = Raise TypeError) /\
  (forall m, as_int (max_fee_rate st) = Some m ->
     (forall v, cmdline_options st !! "fee_per_kb" = Some v -> v <> VNone ->
        fee_per_kb st = Ok (RateValue v)) /\
     (forall u,
        cmdline_options st !! "fee_per_kb" = None \/
        cmdline_options st !! "fee_per_kb" = Some VNone ->
        user_config st !! "fee_per_kb" = Some u ->
        fee_per_kb st = Ok (RateValue u)) /\
     (cmdline_options st !! "fee_per_kb" = None \/
      cmdline_options st !! "fee_per_kb" = Some VNone ->
      user_config st !! "fee_per_kb" = None ->
      fee_per_kb st = Ok (RateNumber (inject_Z m / inject_Z 2)%Q))).
Proof.
  intros Hdyn. unfold fee_per_kb, num_of. cbv zeta. rewrite Hdyn. split.
  - intros ->. reflexivity.
  - intros m ->. unfold dict_get. split; [| split].
    + intros v -> Hv. destruct v; try reflexivity. congruence.
    + intros u [-> | ->] ->; reflexivity.
    + intros [-> | ->] ->; reflexivity.
Qed.

(** Nothing configured: half of the ceiling of 300000. *)
Lemma fee_per_kb_static_witness :
  @fee_per_kb posix (config_of ∅ ∅) =
  Ok (RateNumber (inject_Z 300000 / inject_Z 2)%Q).
Proof.
  refine (proj2 (proj2 (proj2 (@fee_per_kb_static posix (config_of ∅ ∅) _)
                          300000 _)) _ _).
  - reflexivity.
  - vm_compute. reflexivity.
  - left. reflexivity.
  - reflexivity.
Defined.

(** ** Saving without a usable path, and upgrading again *)

(** X24. [save_user_config] does nothing at all when the object has no
    path (an empty string or [None]): no write is attempted.  With a path
    that is true but not a string it raises [TypeError] before any write. *)
Theorem save_user_config_without_path `{Imports} (st : SimpleConfig) :
  (py_truthy (path st) = false -> save_user_config st = (Ok tt, st)) /\
  (py_truthy (path st) = true -> (forall s, path st <> VStr s) ->
   save_user_config st = (Raise TypeError, st)).
Proof.
  unfold save_user_config. split.
  - intros Hp. run_self. rewrite Hp. reflexivity.
  - intros Hp Hs. run_self. rewrite Hp. cbn [negb]. run_lift.
    destruct (path st) as [| b | z | s]; try reflexivity.
    exfalso. exact (Hs s eq_refl).
Qed.

(** X25. Upgrading again is harmless for the settings: on an object already
    at version 2 whose [config_version] is not on the command line,
    [upgrade] leaves the persisted settings exactly as they are, whatever
    the file system does with the save it still attempts. *)
Theorem upgrade_again `{Imports} (st : SimpleConfig) :
  cmdline_options st !! "config_version" = None ->
  user_config st !! "config_version" = Some (VInt FINAL_CONFIG_VERSION) ->
  user_config (snd (upgrade st)) = user_config st /\
  cmdline_options (snd (upgrade st)) = cmdline_options st.
Proof.
  intros Hc Hv.
  assert (as_int (get st "config_version" (VInt 1)) = Some 2) as Hz.
  { rewrite get_unset by exact Hc. rewrite (dict_get_Some _ _ _ _ Hv).
    reflexivity. }
  unfold upgrade. rewrite run_bind.
  rewrite (convert_version_2_skip st 2 Hz) by lia. cbv beta iota.
  rewrite (set_key_modifiable _ _ _ _ Hc).
  destruct (_set_key_in_user_config_frame "config_version"
              (VInt FINAL_CONFIG_VERSION) true st)
    as (r & st' & Hrun & Hc' & Hu & _).
  rewrite Hrun. cbn [snd]. cbn [is_none negb] in Hu.
  split; [| exact Hc'].
  rewrite Hu. apply insert_id, Hv.
Qed.

(** The migrated example, upgraded once more. *)
Lemma upgrade_again_witness :
  user_config (snd (@upgrade posix (config_of ∅ migrated_example))) =
  migrated_example.
Proof.
  refine (proj1 (@upgrade_again posix (config_of ∅ migrated_example) _ _)).
  - reflexivity.
  - vm_compute. reflexivity.
Defined.
